(** * LingoSphere AI (index.tsx): the [App] component as a transition system

    The component keeps all of its data in [useState] hooks and reacts to
    user events and to the replies of the generative-language API.  Every
    [async] handler of the source is split at its single [await]: the part
    before it runs when the event arrives and leaves one entry in the list
    of outstanding calls, the part after it runs when the reply to that
    entry arrives.  A handler runs to completion before the next event is
    taken, as on the JavaScript event loop. *)

From Stdlib Require Import List Ascii String ZArith Bool Lia Arith.
Import ListNotations.
Local Open Scope string_scope.

(** ** Type definitions (index.tsx, lines 6-54) *)

Inductive Difficulty := A1 | B1 | C1.
Inductive Theme := light | dark.
Inductive Persona := friendly | formal.

(** The constructors of [View] carry a prefix: [story] and [exams] would
    otherwise collide with the hooks of the same name. *)
Inductive View :=
| v_home | v_story | v_vocabulary | v_translation | v_pronunciation
| v_conversation | v_writingAnalysis | v_phrasalVerbs | v_phrases
| v_dictionary | v_exams.

Inductive ExamType :=
| comprehensive | reading_vocab | writing_grammar | listening_speaking.

(** ['setup' | 'in-progress' | 'results'] *)
Inductive ExamState := setup | in_progress | results.

Inductive QuestionType := mcq | writing | speaking | listening.

(** [questions: 5 | 10 | 15] *)
Inductive QuestionCount := five | ten | fifteen.

Record Settings := mkSettings
  { difficulty : Difficulty; theme : Theme; persona : Persona }.

Module ExamSettings.
Record t := mk { type : ExamType; questions : QuestionCount }.
End ExamSettings.

(** JSON numbers ([id], [questionId], [overallScore]) are taken as
    integers; only their equality and their display matter below. *)
Module ExamQuestion.
Record t := mk
  { id : Z; type : QuestionType; text : string; options : option (list string) }.
End ExamQuestion.

Module UserAnswer.
Record t := mk { questionId : Z; answer : string }.
End UserAnswer.

Module Feedback.
Record t := mk
  { questionId : Z; questionText : string; userAnswer : string;
    isCorrect : bool; feedback : string }.
End Feedback.

Module ExamResult.
Record t := mk
  { overallScore : Z; summary : string; feedback : list Feedback.t }.
End ExamResult.

Module WordOfTheDay.
Record t := mk { word : string; definition : string; example : string }.
End WordOfTheDay.

Module Story.
Record t := mk { text : string; question : string }.
End Story.

Module DictionaryEntry.
Record t := mk
  { word : string; partOfSpeech : string; definition : string; example : string }.
End DictionaryEntry.

Module VocabularyItem.
Record t := mk { word : string; definition : string; example : string }.
End VocabularyItem.

Module TranslationTask.
Record t := mk { sentence : string; feedback : string }.
End TranslationTask.

Module WritingFeedback.
Record t := mk
  { overall : string; grammar : string; style : string; vocabulary : string }.
End WritingFeedback.

Module PhrasalVerb.
Record t := mk { verb : string; definition : string; example : string }.
End PhrasalVerb.

Module CommonPhrase.
Record t := mk { phrase : string; meaning : string; example : string }.
End CommonPhrase.

Inductive Role := role_user | role_model.

Module ChatTurn.
Record t := mk { role : Role; text : string }.
End ChatTurn.

(** The object returned by [ai.chats.create]: the model it talks to and
    its system instruction. *)
Module Chat.
Record t := mk { model : string; systemInstruction : string }.
End Chat.

(** [{text, x, y, loading, original?}] *)
Module Popup.
Record t := mk
  { text : string; x : Z; y : Z; loading : bool; original : option string }.
End Popup.

(** ** Constants (lines 56-64) *)

Definition difficultyLevels (d : Difficulty) : string :=
  match d with A1 => "Beginner" | B1 => "Intermediate" | C1 => "Advanced" end.

Definition personaInstructions (p : Persona) : string :=
  match p with
  | friendly =>
      "You are a friendly and encouraging English tutor. Your feedback is positive and gentle."
  | formal =>
      "You are a formal English examiner. Your feedback is precise, professional, and direct."
  end.

(** ** Requests

    A prompt is a template literal of the source; it is kept as the name of
    the template together with the values interpolated into it, so that what
    a request carries can be read back from it. *)

Inductive Prompt :=
| prompt_translateSelection (selectedText : string)
| prompt_wordOfTheDay
| prompt_story (level : string)
| prompt_checkStory (level storyText question answer : string)
| prompt_pronunciation (level : string)
| prompt_analyzeSpeech (level sentence said : string)
| prompt_chat (message : string)
| prompt_dictionary (word : string)
| prompt_vocabulary (level : string)
| prompt_translationTask (level : string)
| prompt_checkTranslation (level sentence translation : string)
| prompt_analyzeWriting (level writingText : string)
| prompt_phrasalVerb (level : string)
| prompt_commonPhrase (level : string)
| prompt_exam (type : ExamType) (questions : QuestionCount) (level : string)
| prompt_grade (level : string) (questions : list ExamQuestion.t)
    (answers : list UserAnswer.t).

(** The response schemas built in the handlers. *)
Inductive Schema :=
| schema_word | schema_story | schema_dictionary | schema_vocabulary
| schema_writing | schema_phrasalVerb | schema_phrase | schema_questions
| schema_result.

(** The two entry points of the one client [ai] that send something. *)
Inductive Api := models_generateContent | chat_sendMessage.

Record Request := mkRequest
  { api : Api; model : string; contents : Prompt;
    schema : option Schema; systemInstruction : option string }.

(** The code waiting for a reply: the rest of the handler after its
    [await].  The popup handler keeps the selection rectangle. *)
Inductive Awaiter :=
| in_handleMouseUp (rectLeft rectBottom : Z)
| in_generateWordOfTheDay | in_generateStory | in_checkStoryAnswer
| in_generatePronunciationPrompt | in_analyzeSpeech | in_sendChatMessage
| in_searchDictionary | in_generateVocabulary | in_generateTranslationTask
| in_checkTranslation | in_analyzeWriting | in_generatePhrasalVerb
| in_generateCommonPhrase | in_startExam | in_gradeExam.

(** What [response.text] turns out to be for the handler that reads it:
    used as it is, rejected by [JSON.parse], or parsed into the shape of
    the schema that was requested. *)
Inductive Body :=
| Text (t : string)
| NotJson
| JsonWord (w : WordOfTheDay.t)
| JsonStory (storyText question : string)
| JsonDictionary (d : DictionaryEntry.t)
| JsonVocabulary (l : list VocabularyItem.t)
| JsonWriting (w : WritingFeedback.t)
| JsonPhrasalVerb (p : PhrasalVerb.t)
| JsonPhrase (p : CommonPhrase.t)
| JsonQuestions (qs : list ExamQuestion.t)
| JsonResult (r : ExamResult.t).

(** The promise of a call either rejects or resolves. *)
Inductive Reply := rejected | resolved (b : Body).

(** ** The state of the component (lines 80-120)

    One field per [useState] hook, then the pieces of the environment the
    handlers read or feed: the module-level [recognition] object (lines
    67-75), which is undefined in a browser without speech recognition
    ([None]) and otherwise either has its [onresult] handler assigned or
    not; the scroll offset of the window; and the calls that are
    outstanding. *)

Record AppState := mkApp
  { settings : Settings;
    activeView : View;
    error : string;
    isLoading : bool;
    isSubmitting : bool;
    wordOfTheDay : option WordOfTheDay.t;
    isSettingsOpen : bool;
    story : Story.t;
    storyAnswer : string;
    storyFeedback : string;
    pronunciationPrompt : string;
    pronunciationFeedback : string;
    isRecording : bool;
    transcript : string;
    chat : option Chat.t;
    chatHistory : list ChatTurn.t;
    chatMessage : string;
    dictionaryWord : string;
    dictionaryResult : option DictionaryEntry.t;
    vocabularyList : list VocabularyItem.t;
    translationTask : TranslationTask.t;
    userTranslation : string;
    writingInput : string;
    writingFeedback : option WritingFeedback.t;
    phrasalVerb : option PhrasalVerb.t;
    commonPhrase : option CommonPhrase.t;
    examState : ExamState;
    examSettings : ExamSettings.t;
    examQuestions : list ExamQuestion.t;
    currentQuestionIndex : nat;
    userAnswers : list UserAnswer.t;
    currentAnswer : string;
    examResults : option ExamResult.t;
    popup : Popup.t;
    recognition : option bool;
    scroll : Z * Z;
    inflight : list (Awaiter * Request) }.

(** ** The hook setters

    [setX v s] is [s] with the hook [X] replaced by [v]. *)

Definition setSettings v (s : AppState) : AppState :=
  mkApp v (activeView s) (error s) (isLoading s) (isSubmitting s)
    (wordOfTheDay s) (isSettingsOpen s) (story s) (storyAnswer s)
    (storyFeedback s) (pronunciationPrompt s) (pronunciationFeedback s)
    (isRecording s) (transcript s) (chat s) (chatHistory s) (chatMessage s)
    (dictionaryWord s) (dictionaryResult s) (vocabularyList s)
    (translationTask s) (userTranslation s) (writingInput s)
    (writingFeedback s) (phrasalVerb s) (commonPhrase s) (examState s)
    (examSettings s) (examQuestions s) (currentQuestionIndex s) (userAnswers
    s) (currentAnswer s) (examResults s) (popup s) (recognition s) (scroll
    s) (inflight s).

Definition setActiveView v (s : AppState) : AppState :=
  mkApp (settings s) v (error s) (isLoading s) (isSubmitting s)
    (wordOfTheDay s) (isSettingsOpen s) (story s) (storyAnswer s)
    (storyFeedback s) (pronunciationPrompt s) (pronunciationFeedback s)
    (isRecording s) (transcript s) (chat s) (chatHistory s) (chatMessage s)
    (dictionaryWord s) (dictionaryResult s) (vocabularyList s)
    (translationTask s) (userTranslation s) (writingInput s)
    (writingFeedback s) (phrasalVerb s) (commonPhrase s) (examState s)
    (examSettings s) (examQuestions s) (currentQuestionIndex s) (userAnswers
    s) (currentAnswer s) (examResults s) (popup s) (recognition s) (scroll
    s) (inflight s).

Definition setError v (s : AppState) : AppState :=
  mkApp (settings s) (activeView s) v (isLoading s) (isSubmitting s)
    (wordOfTheDay s) (isSettingsOpen s) (story s) (storyAnswer s)
    (storyFeedback s) (pronunciationPrompt s) (pronunciationFeedback s)
    (isRecording s) (transcript s) (chat s) (chatHistory s) (chatMessage s)
    (dictionaryWord s) (dictionaryResult s) (vocabularyList s)
    (translationTask s) (userTranslation s) (writingInput s)
    (writingFeedback s) (phrasalVerb s) (commonPhrase s) (examState s)
    (examSettings s) (examQuestions s) (currentQuestionIndex s) (userAnswers
    s) (currentAnswer s) (examResults s) (popup s) (recognition s) (scroll
    s) (inflight s).

Definition setIsLoading v (s : AppState) : AppState :=
  mkApp (settings s) (activeView s) (error s) v (isSubmitting s)
    (wordOfTheDay s) (isSettingsOpen s) (story s) (storyAnswer s)
    (storyFeedback s) (pronunciationPrompt s) (pronunciationFeedback s)
    (isRecording s) (transcript s) (chat s) (chatHistory s) (chatMessage s)
    (dictionaryWord s) (dictionaryResult s) (vocabularyList s)
    (translationTask s) (userTranslation s) (writingInput s)
    (writingFeedback s) (phrasalVerb s) (commonPhrase s) (examState s)
    (examSettings s) (examQuestions s) (currentQuestionIndex s) (userAnswers
    s) (currentAnswer s) (examResults s) (popup s) (recognition s) (scroll
    s) (inflight s).

Definition setIsSubmitting v (s : AppState) : AppState :=
  mkApp (settings s) (activeView s) (error s) (isLoading s) v (wordOfTheDay
    s) (isSettingsOpen s) (story s) (storyAnswer s) (storyFeedback s)
    (pronunciationPrompt s) (pronunciationFeedback s) (isRecording s)
    (transcript s) (chat s) (chatHistory s) (chatMessage s) (dictionaryWord
    s) (dictionaryResult s) (vocabularyList s) (translationTask s)
    (userTranslation s) (writingInput s) (writingFeedback s) (phrasalVerb s)
    (commonPhrase s) (examState s) (examSettings s) (examQuestions s)
    (currentQuestionIndex s) (userAnswers s) (currentAnswer s) (examResults
    s) (popup s) (recognition s) (scroll s) (inflight s).

Definition setWordOfTheDay v (s : AppState) : AppState :=
  mkApp (settings s) (activeView s) (error s) (isLoading s) (isSubmitting s)
    v (isSettingsOpen s) (story s) (storyAnswer s) (storyFeedback s)
    (pronunciationPrompt s) (pronunciationFeedback s) (isRecording s)
    (transcript s) (chat s) (chatHistory s) (chatMessage s) (dictionaryWord
    s) (dictionaryResult s) (vocabularyList s) (translationTask s)
    (userTranslation s) (writingInput s) (writingFeedback s) (phrasalVerb s)
    (commonPhrase s) (examState s) (examSettings s) (examQuestions s)
    (currentQuestionIndex s) (userAnswers s) (currentAnswer s) (examResults
    s) (popup s) (recognition s) (scroll s) (inflight s).

Definition setIsSettingsOpen v (s : AppState) : AppState :=
  mkApp (settings s) (activeView s) (error s) (isLoading s) (isSubmitting s)
    (wordOfTheDay s) v (story s) (storyAnswer s) (storyFeedback s)
    (pronunciationPrompt s) (pronunciationFeedback s) (isRecording s)
    (transcript s) (chat s) (chatHistory s) (chatMessage s) (dictionaryWord
    s) (dictionaryResult s) (vocabularyList s) (translationTask s)
    (userTranslation s) (writingInput s) (writingFeedback s) (phrasalVerb s)
    (commonPhrase s) (examState s) (examSettings s) (examQuestions s)
    (currentQuestionIndex s) (userAnswers s) (currentAnswer s) (examResults
    s) (popup s) (recognition s) (scroll s) (inflight s).

Definition setStory v (s : AppState) : AppState :=
  mkApp (settings s) (activeView s) (error s) (isLoading s) (isSubmitting s)
    (wordOfTheDay s) (isSettingsOpen s) v (storyAnswer s) (storyFeedback s)
    (pronunciationPrompt s) (pronunciationFeedback s) (isRecording s)
    (transcript s) (chat s) (chatHistory s) (chatMessage s) (dictionaryWord
    s) (dictionaryResult s) (vocabularyList s) (translationTask s)
    (userTranslation s) (writingInput s) (writingFeedback s) (phrasalVerb s)
    (commonPhrase s) (examState s) (examSettings s) (examQuestions s)
    (currentQuestionIndex s) (userAnswers s) (currentAnswer s) (examResults
    s) (popup s) (recognition s) (scroll s) (inflight s).

Definition setStoryAnswer v (s : AppState) : AppState :=
  mkApp (settings s) (activeView s) (error s) (isLoading s) (isSubmitting s)
    (wordOfTheDay s) (isSettingsOpen s) (story s) v (storyFeedback s)
    (pronunciationPrompt s) (pronunciationFeedback s) (isRecording s)
    (transcript s) (chat s) (chatHistory s) (chatMessage s) (dictionaryWord
    s) (dictionaryResult s) (vocabularyList s) (translationTask s)
    (userTranslation s) (writingInput s) (writingFeedback s) (phrasalVerb s)
    (commonPhrase s) (examState s) (examSettings s) (examQuestions s)
    (currentQuestionIndex s) (userAnswers s) (currentAnswer s) (examResults
    s) (popup s) (recognition s) (scroll s) (inflight s).

Definition setStoryFeedback v (s : AppState) : AppState :=
  mkApp (settings s) (activeView s) (error s) (isLoading s) (isSubmitting s)
    (wordOfTheDay s) (isSettingsOpen s) (story s) (storyAnswer s) v
    (pronunciationPrompt s) (pronunciationFeedback s) (isRecording s)
    (transcript s) (chat s) (chatHistory s) (chatMessage s) (dictionaryWord
    s) (dictionaryResult s) (vocabularyList s) (translationTask s)
    (userTranslation s) (writingInput s) (writingFeedback s) (phrasalVerb s)
    (commonPhrase s) (examState s) (examSettings s) (examQuestions s)
    (currentQuestionIndex s) (userAnswers s) (currentAnswer s) (examResults
    s) (popup s) (recognition s) (scroll s) (inflight s).

Definition setPronunciationPrompt v (s : AppState) : AppState :=
  mkApp (settings s) (activeView s) (error s) (isLoading s) (isSubmitting s)
    (wordOfTheDay s) (isSettingsOpen s) (story s) (storyAnswer s)
    (storyFeedback s) v (pronunciationFeedback s) (isRecording s)
    (transcript s) (chat s) (chatHistory s) (chatMessage s) (dictionaryWord
    s) (dictionaryResult s) (vocabularyList s) (translationTask s)
    (userTranslation s) (writingInput s) (writingFeedback s) (phrasalVerb s)
    (commonPhrase s) (examState s) (examSettings s) (examQuestions s)
    (currentQuestionIndex s) (userAnswers s) (currentAnswer s) (examResults
    s) (popup s) (recognition s) (scroll s) (inflight s).

Definition setPronunciationFeedback v (s : AppState) : AppState :=
  mkApp (settings s) (activeView s) (error s) (isLoading s) (isSubmitting s)
    (wordOfTheDay s) (isSettingsOpen s) (story s) (storyAnswer s)
    (storyFeedback s) (pronunciationPrompt s) v (isRecording s) (transcript
    s) (chat s) (chatHistory s) (chatMessage s) (dictionaryWord s)
    (dictionaryResult s) (vocabularyList s) (translationTask s)
    (userTranslation s) (writingInput s) (writingFeedback s) (phrasalVerb s)
    (commonPhrase s) (examState s) (examSettings s) (examQuestions s)
    (currentQuestionIndex s) (userAnswers s) (currentAnswer s) (examResults
    s) (popup s) (recognition s) (scroll s) (inflight s).

Definition setIsRecording v (s : AppState) : AppState :=
  mkApp (settings s) (activeView s) (error s) (isLoading s) (isSubmitting s)
    (wordOfTheDay s) (isSettingsOpen s) (story s) (storyAnswer s)
    (storyFeedback s) (pronunciationPrompt s) (pronunciationFeedback s) v
    (transcript s) (chat s) (chatHistory s) (chatMessage s) (dictionaryWord
    s) (dictionaryResult s) (vocabularyList s) (translationTask s)
    (userTranslation s) (writingInput s) (writingFeedback s) (phrasalVerb s)
    (commonPhrase s) (examState s) (examSettings s) (examQuestions s)
    (currentQuestionIndex s) (userAnswers s) (currentAnswer s) (examResults
    s) (popup s) (recognition s) (scroll s) (inflight s).

Definition setTranscript v (s : AppState) : AppState :=
  mkApp (settings s) (activeView s) (error s) (isLoading s) (isSubmitting s)
    (wordOfTheDay s) (isSettingsOpen s) (story s) (storyAnswer s)
    (storyFeedback s) (pronunciationPrompt s) (pronunciationFeedback s)
    (isRecording s) v (chat s) (chatHistory s) (chatMessage s)
    (dictionaryWord s) (dictionaryResult s) (vocabularyList s)
    (translationTask s) (userTranslation s) (writingInput s)
    (writingFeedback s) (phrasalVerb s) (commonPhrase s) (examState s)
    (examSettings s) (examQuestions s) (currentQuestionIndex s) (userAnswers
    s) (currentAnswer s) (examResults s) (popup s) (recognition s) (scroll
    s) (inflight s).

Definition setChat v (s : AppState) : AppState :=
  mkApp (settings s) (activeView s) (error s) (isLoading s) (isSubmitting s)
    (wordOfTheDay s) (isSettingsOpen s) (story s) (storyAnswer s)
    (storyFeedback s) (pronunciationPrompt s) (pronunciationFeedback s)
    (isRecording s) (transcript s) v (chatHistory s) (chatMessage s)
    (dictionaryWord s) (dictionaryResult s) (vocabularyList s)
    (translationTask s) (userTranslation s) (writingInput s)
    (writingFeedback s) (phrasalVerb s) (commonPhrase s) (examState s)
    (examSettings s) (examQuestions s) (currentQuestionIndex s) (userAnswers
    s) (currentAnswer s) (examResults s) (popup s) (recognition s) (scroll
    s) (inflight s).

Definition setChatHistory v (s : AppState) : AppState :=
  mkApp (settings s) (activeView s) (error s) (isLoading s) (isSubmitting s)
    (wordOfTheDay s) (isSettingsOpen s) (story s) (storyAnswer s)
    (storyFeedback s) (pronunciationPrompt s) (pronunciationFeedback s)
    (isRecording s) (transcript s) (chat s) v (chatMessage s)
    (dictionaryWord s) (dictionaryResult s) (vocabularyList s)
    (translationTask s) (userTranslation s) (writingInput s)
    (writingFeedback s) (phrasalVerb s) (commonPhrase s) (examState s)
    (examSettings s) (examQuestions s) (currentQuestionIndex s) (userAnswers
    s) (currentAnswer s) (examResults s) (popup s) (recognition s) (scroll
    s) (inflight s).

Definition setChatMessage v (s : AppState) : AppState :=
  mkApp (settings s) (activeView s) (error s) (isLoading s) (isSubmitting s)
    (wordOfTheDay s) (isSettingsOpen s) (story s) (storyAnswer s)
    (storyFeedback s) (pronunciationPrompt s) (pronunciationFeedback s)
    (isRecording s) (transcript s) (chat s) (chatHistory s) v
    (dictionaryWord s) (dictionaryResult s) (vocabularyList s)
    (translationTask s) (userTranslation s) (writingInput s)
    (writingFeedback s) (phrasalVerb s) (commonPhrase s) (examState s)
    (examSettings s) (examQuestions s) (currentQuestionIndex s) (userAnswers
    s) (currentAnswer s) (examResults s) (popup s) (recognition s) (scroll
    s) (inflight s).

Definition setDictionaryWord v (s : AppState) : AppState :=
  mkApp (settings s) (activeView s) (error s) (isLoading s) (isSubmitting s)
    (wordOfTheDay s) (isSettingsOpen s) (story s) (storyAnswer s)
    (storyFeedback s) (pronunciationPrompt s) (pronunciationFeedback s)
    (isRecording s) (transcript s) (chat s) (chatHistory s) (chatMessage s)
    v (dictionaryResult s) (vocabularyList s) (translationTask s)
    (userTranslation s) (writingInput s) (writingFeedback s) (phrasalVerb s)
    (commonPhrase s) (examState s) (examSettings s) (examQuestions s)
    (currentQuestionIndex s) (userAnswers s) (currentAnswer s) (examResults
    s) (popup s) (recognition s) (scroll s) (inflight s).

Definition setDictionaryResult v (s : AppState) : AppState :=
  mkApp (settings s) (activeView s) (error s) (isLoading s) (isSubmitting s)
    (wordOfTheDay s) (isSettingsOpen s) (story s) (storyAnswer s)
    (storyFeedback s) (pronunciationPrompt s) (pronunciationFeedback s)
    (isRecording s) (transcript s) (chat s) (chatHistory s) (chatMessage s)
    (dictionaryWord s) v (vocabularyList s) (translationTask s)
    (userTranslation s) (writingInput s) (writingFeedback s) (phrasalVerb s)
    (commonPhrase s) (examState s) (examSettings s) (examQuestions s)
    (currentQuestionIndex s) (userAnswers s) (currentAnswer s) (examResults
    s) (popup s) (recognition s) (scroll s) (inflight s).

Definition setVocabularyList v (s : AppState) : AppState :=
  mkApp (settings s) (activeView s) (error s) (isLoading s) (isSubmitting s)
    (wordOfTheDay s) (isSettingsOpen s) (story s) (storyAnswer s)
    (storyFeedback s) (pronunciationPrompt s) (pronunciationFeedback s)
    (isRecording s) (transcript s) (chat s) (chatHistory s) (chatMessage s)
    (dictionaryWord s) (dictionaryResult s) v (translationTask s)
    (userTranslation s) (writingInput s) (writingFeedback s) (phrasalVerb s)
    (commonPhrase s) (examState s) (examSettings s) (examQuestions s)
    (currentQuestionIndex s) (userAnswers s) (currentAnswer s) (examResults
    s) (popup s) (recognition s) (scroll s) (inflight s).

Definition setTranslationTask v (s : AppState) : AppState :=
  mkApp (settings s) (activeView s) (error s) (isLoading s) (isSubmitting s)
    (wordOfTheDay s) (isSettingsOpen s) (story s) (storyAnswer s)
    (storyFeedback s) (pronunciationPrompt s) (pronunciationFeedback s)
    (isRecording s) (transcript s) (chat s) (chatHistory s) (chatMessage s)
    (dictionaryWord s) (dictionaryResult s) (vocabularyList s) v
    (userTranslation s) (writingInput s) (writingFeedback s) (phrasalVerb s)
    (commonPhrase s) (examState s) (examSettings s) (examQuestions s)
    (currentQuestionIndex s) (userAnswers s) (currentAnswer s) (examResults
    s) (popup s) (recognition s) (scroll s) (inflight s).

Definition setUserTranslation v (s : AppState) : AppState :=
  mkApp (settings s) (activeView s) (error s) (isLoading s) (isSubmitting s)
    (wordOfTheDay s) (isSettingsOpen s) (story s) (storyAnswer s)
    (storyFeedback s) (pronunciationPrompt s) (pronunciationFeedback s)
    (isRecording s) (transcript s) (chat s) (chatHistory s) (chatMessage s)
    (dictionaryWord s) (dictionaryResult s) (vocabularyList s)
    (translationTask s) v (writingInput s) (writingFeedback s) (phrasalVerb
    s) (commonPhrase s) (examState s) (examSettings s) (examQuestions s)
    (currentQuestionIndex s) (userAnswers s) (currentAnswer s) (examResults
    s) (popup s) (recognition s) (scroll s) (inflight s).

Definition setWritingInput v (s : AppState) : AppState :=
  mkApp (settings s) (activeView s) (error s) (isLoading s) (isSubmitting s)
    (wordOfTheDay s) (isSettingsOpen s) (story s) (storyAnswer s)
    (storyFeedback s) (pronunciationPrompt s) (pronunciationFeedback s)
    (isRecording s) (transcript s) (chat s) (chatHistory s) (chatMessage s)
    (dictionaryWord s) (dictionaryResult s) (vocabularyList s)
    (translationTask s) (userTranslation s) v (writingFeedback s)
    (phrasalVerb s) (commonPhrase s) (examState s) (examSettings s)
    (examQuestions s) (currentQuestionIndex s) (userAnswers s)
    (currentAnswer s) (examResults s) (popup s) (recognition s) (scroll s)
    (inflight s).

Definition setWritingFeedback v (s : AppState) : AppState :=
  mkApp (settings s) (activeView s) (error s) (isLoading s) (isSubmitting s)
    (wordOfTheDay s) (isSettingsOpen s) (story s) (storyAnswer s)
    (storyFeedback s) (pronunciationPrompt s) (pronunciationFeedback s)
    (isRecording s) (transcript s) (chat s) (chatHistory s) (chatMessage s)
    (dictionaryWord s) (dictionaryResult s) (vocabularyList s)
    (translationTask s) (userTranslation s) (writingInput s) v (phrasalVerb
    s) (commonPhrase s) (examState s) (examSettings s) (examQuestions s)
    (currentQuestionIndex s) (userAnswers s) (currentAnswer s) (examResults
    s) (popup s) (recognition s) (scroll s) (inflight s).

Definition setPhrasalVerb v (s : AppState) : AppState :=
  mkApp (settings s) (activeView s) (error s) (isLoading s) (isSubmitting s)
    (wordOfTheDay s) (isSettingsOpen s) (story s) (storyAnswer s)
    (storyFeedback s) (pronunciationPrompt s) (pronunciationFeedback s)
    (isRecording s) (transcript s) (chat s) (chatHistory s) (chatMessage s)
    (dictionaryWord s) (dictionaryResult s) (vocabularyList s)
    (translationTask s) (userTranslation s) (writingInput s)
    (writingFeedback s) v (commonPhrase s) (examState s) (examSettings s)
    (examQuestions s) (currentQuestionIndex s) (userAnswers s)
    (currentAnswer s) (examResults s) (popup s) (recognition s) (scroll s)
    (inflight s).

Definition setCommonPhrase v (s : AppState) : AppState :=
  mkApp (settings s) (activeView s) (error s) (isLoading s) (isSubmitting s)
    (wordOfTheDay s) (isSettingsOpen s) (story s) (storyAnswer s)
    (storyFeedback s) (pronunciationPrompt s) (pronunciationFeedback s)
    (isRecording s) (transcript s) (chat s) (chatHistory s) (chatMessage s)
    (dictionaryWord s) (dictionaryResult s) (vocabularyList s)
    (translationTask s) (userTranslation s) (writingInput s)
    (writingFeedback s) (phrasalVerb s) v (examState s) (examSettings s)
    (examQuestions s) (currentQuestionIndex s) (userAnswers s)
    (currentAnswer s) (examResults s) (popup s) (recognition s) (scroll s)
    (inflight s).

Definition setExamState v (s : AppState) : AppState :=
  mkApp (settings s) (activeView s) (error s) (isLoading s) (isSubmitting s)
    (wordOfTheDay s) (isSettingsOpen s) (story s) (storyAnswer s)
    (storyFeedback s) (pronunciationPrompt s) (pronunciationFeedback s)
    (isRecording s) (transcript s) (chat s) (chatHistory s) (chatMessage s)
    (dictionaryWord s) (dictionaryResult s) (vocabularyList s)
    (translationTask s) (userTranslation s) (writingInput s)
    (writingFeedback s) (phrasalVerb s) (commonPhrase s) v (examSettings s)
    (examQuestions s) (currentQuestionIndex s) (userAnswers s)
    (currentAnswer s) (examResults s) (popup s) (recognition s) (scroll s)
    (inflight s).

Definition setExamSettings v (s : AppState) : AppState :=
  mkApp (settings s) (activeView s) (error s) (isLoading s) (isSubmitting s)
    (wordOfTheDay s) (isSettingsOpen s) (story s) (storyAnswer s)
    (storyFeedback s) (pronunciationPrompt s) (pronunciationFeedback s)
    (isRecording s) (transcript s) (chat s) (chatHistory s) (chatMessage s)
    (dictionaryWord s) (dictionaryResult s) (vocabularyList s)
    (translationTask s) (userTranslation s) (writingInput s)
    (writingFeedback s) (phrasalVerb s) (commonPhrase s) (examState s) v
    (examQuestions s) (currentQuestionIndex s) (userAnswers s)
    (currentAnswer s) (examResults s) (popup s) (recognition s) (scroll s)
    (inflight s).

Definition setExamQuestions v (s : AppState) : AppState :=
  mkApp (settings s) (activeView s) (error s) (isLoading s) (isSubmitting s)
    (wordOfTheDay s) (isSettingsOpen s) (story s) (storyAnswer s)
    (storyFeedback s) (pronunciationPrompt s) (pronunciationFeedback s)
    (isRecording s) (transcript s) (chat s) (chatHistory s) (chatMessage s)
    (dictionaryWord s) (dictionaryResult s) (vocabularyList s)
    (translationTask s) (userTranslation s) (writingInput s)
    (writingFeedback s) (phrasalVerb s) (commonPhrase s) (examState s)
    (examSettings s) v (currentQuestionIndex s) (userAnswers s)
    (currentAnswer s) (examResults s) (popup s) (recognition s) (scroll s)
    (inflight s).

Definition setCurrentQuestionIndex v (s : AppState) : AppState :=
  mkApp (settings s) (activeView s) (error s) (isLoading s) (isSubmitting s)
    (wordOfTheDay s) (isSettingsOpen s) (story s) (storyAnswer s)
    (storyFeedback s) (pronunciationPrompt s) (pronunciationFeedback s)
    (isRecording s) (transcript s) (chat s) (chatHistory s) (chatMessage s)
    (dictionaryWord s) (dictionaryResult s) (vocabularyList s)
    (translationTask s) (userTranslation s) (writingInput s)
    (writingFeedback s) (phrasalVerb s) (commonPhrase s) (examState s)
    (examSettings s) (examQuestions s) v (userAnswers s) (currentAnswer s)
    (examResults s) (popup s) (recognition s) (scroll s) (inflight s).

Definition setUserAnswers v (s : AppState) : AppState :=
  mkApp (settings s) (activeView s) (error s) (isLoading s) (isSubmitting s)
    (wordOfTheDay s) (isSettingsOpen s) (story s) (storyAnswer s)
    (storyFeedback s) (pronunciationPrompt s) (pronunciationFeedback s)
    (isRecording s) (transcript s) (chat s) (chatHistory s) (chatMessage s)
    (dictionaryWord s) (dictionaryResult s) (vocabularyList s)
    (translationTask s) (userTranslation s) (writingInput s)
    (writingFeedback s) (phrasalVerb s) (commonPhrase s) (examState s)
    (examSettings s) (examQuestions s) (currentQuestionIndex s) v
    (currentAnswer s) (examResults s) (popup s) (recognition s) (scroll s)
    (inflight s).

Definition setCurrentAnswer v (s : AppState) : AppState :=
  mkApp (settings s) (activeView s) (error s) (isLoading s) (isSubmitting s)
    (wordOfTheDay s) (isSettingsOpen s) (story s) (storyAnswer s)
    (storyFeedback s) (pronunciationPrompt s) (pronunciationFeedback s)
    (isRecording s) (transcript s) (chat s) (chatHistory s) (chatMessage s)
    (dictionaryWord s) (dictionaryResult s) (vocabularyList s)
    (translationTask s) (userTranslation s) (writingInput s)
    (writingFeedback s) (phrasalVerb s) (commonPhrase s) (examState s)
    (examSettings s) (examQuestions s) (currentQuestionIndex s) (userAnswers
    s) v (examResults s) (popup s) (recognition s) (scroll s) (inflight s).

Definition setExamResults v (s : AppState) : AppState :=
  mkApp (settings s) (activeView s) (error s) (isLoading s) (isSubmitting s)
    (wordOfTheDay s) (isSettingsOpen s) (story s) (storyAnswer s)
    (storyFeedback s) (pronunciationPrompt s) (pronunciationFeedback s)
    (isRecording s) (transcript s) (chat s) (chatHistory s) (chatMessage s)
    (dictionaryWord s) (dictionaryResult s) (vocabularyList s)
    (translationTask s) (userTranslation s) (writingInput s)
    (writingFeedback s) (phrasalVerb s) (commonPhrase s) (examState s)
    (examSettings s) (examQuestions s) (currentQuestionIndex s) (userAnswers
    s) (currentAnswer s) v (popup s) (recognition s) (scroll s) (inflight
    s).

Definition setPopup v (s : AppState) : AppState :=
  mkApp (settings s) (activeView s) (error s) (isLoading s) (isSubmitting s)
    (wordOfTheDay s) (isSettingsOpen s) (story s) (storyAnswer s)
    (storyFeedback s) (pronunciationPrompt s) (pronunciationFeedback s)
    (isRecording s) (transcript s) (chat s) (chatHistory s) (chatMessage s)
    (dictionaryWord s) (dictionaryResult s) (vocabularyList s)
    (translationTask s) (userTranslation s) (writingInput s)
    (writingFeedback s) (phrasalVerb s) (commonPhrase s) (examState s)
    (examSettings s) (examQuestions s) (currentQuestionIndex s) (userAnswers
    s) (currentAnswer s) (examResults s) v (recognition s) (scroll s)
    (inflight s).

Definition setRecognition v (s : AppState) : AppState :=
  mkApp (settings s) (activeView s) (error s) (isLoading s) (isSubmitting s)
    (wordOfTheDay s) (isSettingsOpen s) (story s) (storyAnswer s)
    (storyFeedback s) (pronunciationPrompt s) (pronunciationFeedback s)
    (isRecording s) (transcript s) (chat s) (chatHistory s) (chatMessage s)
    (dictionaryWord s) (dictionaryResult s) (vocabularyList s)
    (translationTask s) (userTranslation s) (writingInput s)
    (writingFeedback s) (phrasalVerb s) (commonPhrase s) (examState s)
    (examSettings s) (examQuestions s) (currentQuestionIndex s) (userAnswers
    s) (currentAnswer s) (examResults s) (popup s) v (scroll s) (inflight
    s).

Definition setScroll v (s : AppState) : AppState :=
  mkApp (settings s) (activeView s) (error s) (isLoading s) (isSubmitting s)
    (wordOfTheDay s) (isSettingsOpen s) (story s) (storyAnswer s)
    (storyFeedback s) (pronunciationPrompt s) (pronunciationFeedback s)
    (isRecording s) (transcript s) (chat s) (chatHistory s) (chatMessage s)
    (dictionaryWord s) (dictionaryResult s) (vocabularyList s)
    (translationTask s) (userTranslation s) (writingInput s)
    (writingFeedback s) (phrasalVerb s) (commonPhrase s) (examState s)
    (examSettings s) (examQuestions s) (currentQuestionIndex s) (userAnswers
    s) (currentAnswer s) (examResults s) (popup s) (recognition s) v
    (inflight s).

Definition setInflight v (s : AppState) : AppState :=
  mkApp (settings s) (activeView s) (error s) (isLoading s) (isSubmitting s)
    (wordOfTheDay s) (isSettingsOpen s) (story s) (storyAnswer s)
    (storyFeedback s) (pronunciationPrompt s) (pronunciationFeedback s)
    (isRecording s) (transcript s) (chat s) (chatHistory s) (chatMessage s)
    (dictionaryWord s) (dictionaryResult s) (vocabularyList s)
    (translationTask s) (userTranslation s) (writingInput s)
    (writingFeedback s) (phrasalVerb s) (commonPhrase s) (examState s)
    (examSettings s) (examQuestions s) (currentQuestionIndex s) (userAnswers
    s) (currentAnswer s) (examResults s) (popup s) (recognition s) (scroll
    s) v.

(** ** Small helpers *)

(** Sequencing of state updates, read left to right as the statements of a
    handler. *)
Notation "s |> f" := (f s) (at level 45, left associativity, only parsing).

(** JavaScript truthiness of a string: [!str] holds for the empty string
    only. *)
Definition truthy (str : string) : bool := negb (str =? "").

Definition is_exams (v : View) : bool :=
  match v with v_exams => true | _ => false end.

Definition is_results (e : ExamState) : bool :=
  match e with results => true | _ => false end.

Definition view_eqb (a b : View) : bool :=
  match a, b with
  | v_home, v_home | v_story, v_story | v_vocabulary, v_vocabulary
  | v_translation, v_translation | v_pronunciation, v_pronunciation
  | v_conversation, v_conversation | v_writingAnalysis, v_writingAnalysis
  | v_phrasalVerbs, v_phrasalVerbs | v_phrases, v_phrases
  | v_dictionary, v_dictionary | v_exams, v_exams => true
  | _, _ => false
  end.

(** [str.length] counts UTF-16 code units.  A text is kept here as the
    bytes of its UTF-8 encoding: a byte below 0x80 and the lead byte of a
    two- or three-byte sequence stand for one unit, the lead byte of a
    four-byte sequence for two (a surrogate pair), a continuation byte for
    none. *)
Definition utf16_units (c : ascii) : nat :=
  let n := nat_of_ascii c in
  if (n <? 128)%nat then 1
  else if (n <? 192)%nat then 0
  else if (n <? 240)%nat then 1
  else 2.

Fixpoint jsLength (str : string) : nat :=
  match str with
  | EmptyString => 0
  | String c rest => utf16_units c + jsLength rest
  end.

Definition is_some {A} (o : option A) : bool :=
  match o with Some _ => true | None => false end.

(** The list without its [i]-th element. *)
Fixpoint remove_nth {A} (i : nat) (l : list A) : list A :=
  match l, i with
  | [], _ => []
  | _ :: l', O => l'
  | a :: l', S i' => a :: remove_nth i' l'
  end.

(** ** Calling the API (lines 193-207) *)

(** A handler that awaits a call leaves the request, and what is to run on
    its reply, at the end of the outstanding calls. *)
Definition call (k : Awaiter) (r : Request) (s : AppState) : AppState :=
  setInflight (inflight s ++ [(k, r)]) s.

(** The request [generateContent] sends: [schema] and [systemInstruction]
    enter the config only when they are given. *)
Definition generateContent (prompt : Prompt) (schema : option Schema)
  (systemInstruction : option string) : Request :=
  mkRequest models_generateContent "gemini-2.5-flash" prompt schema
    systemInstruction.

Definition genericError : string := "An error occurred. Please try again.".

(** The [try]/[catch] of [generateContent]: a rejected call sets [error]
    and gives [null], a resolved one gives the response. *)
Definition generateContent_reply (r : Reply) (s : AppState)
  : AppState * option Body :=
  match r with
  | rejected => (setError genericError s, None)
  | resolved b => (s, Some b)
  end.

Definition level (s : AppState) : string :=
  difficultyLevels (difficulty (settings s)).

Definition instruction (s : AppState) : string :=
  personaInstructions (persona (settings s)).

(** ** The handlers up to their [await] (lines 141-430) *)

Definition emptyPopup : Popup.t := Popup.mk "" 0 0 false None.

(** [handleMouseUp].  The event tells whether its target lies outside the
    popup element, the trimmed selection, whether the selection starts
    inside the main content, whether the focus is in an input or textarea,
    and the left and bottom edges of the selection rectangle.  The popup
    element exists when [TranslationPopup] rendered it, that is when
    [popup.original] is set. *)
Definition handleMouseUp (outsidePopup : bool) (selectedText : string)
  (inMain inField : bool) (rectLeft rectBottom : Z) (s : AppState)
  : AppState :=
  let s1 :=
    if is_some (Popup.original (popup s)) && outsidePopup
    then setPopup emptyPopup s else s in
  if (0 <? jsLength selectedText)%nat
     && (jsLength selectedText <? 100)%nat && inMain
  then
    if inField then s1
    else
      s1 |> setPopup (Popup.mk "" (rectLeft + fst (scroll s))
                        (rectBottom + snd (scroll s) + 5) true
                        (Some selectedText))
         |> call (in_handleMouseUp rectLeft rectBottom)
              (mkRequest models_generateContent "gemini-2.5-flash"
                 (prompt_translateSelection selectedText) None None)
  else s1.

Definition generateWordOfTheDay (s : AppState) : AppState :=
  s |> call in_generateWordOfTheDay
         (generateContent prompt_wordOfTheDay (Some schema_word) None).

Definition generateStory (s : AppState) : AppState :=
  s |> setIsLoading true |> setStory (Story.mk "" "") |> setStoryAnswer ""
    |> setStoryFeedback ""
    |> call in_generateStory
         (generateContent (prompt_story (level s)) (Some schema_story) None).

Definition checkStoryAnswer (s : AppState) : AppState :=
  if negb (truthy (storyAnswer s)) then s
  else
    s |> setIsSubmitting true |> setStoryFeedback ""
      |> call in_checkStoryAnswer
           (generateContent
              (prompt_checkStory (level s) (Story.text (story s))
                 (Story.question (story s)) (storyAnswer s))
              None (Some (instruction s))).

Definition generatePronunciationPrompt (s : AppState) : AppState :=
  s |> setIsLoading true |> setPronunciationPrompt "" |> setTranscript ""
    |> setPronunciationFeedback ""
    |> call in_generatePronunciationPrompt
         (generateContent (prompt_pronunciation (level s)) None None).

(** [handlePronunciation].  Where [recognition] is undefined,
    [recognition.stop()] throws before anything is set, and the assignment
    to [recognition.onresult] throws after the two setters before it were
    called and before [setIsRecording(true)]. *)
Definition handlePronunciation (s : AppState) : AppState :=
  if isRecording s then
    match recognition s with
    | None => s
    | Some _ => s |> setIsRecording false
    end
  else
    let s1 := s |> setTranscript "" |> setPronunciationFeedback "" in
    match recognition s with
    | None => s1
    | Some _ => s1 |> setRecognition (Some true) |> setIsRecording true
    end.

(** [recognition.onresult], with the joined transcript of the event. *)
Definition onresult (fullTranscript : string) (s : AppState) : AppState :=
  s |> setTranscript fullTranscript.

Definition analyzeSpeech (s : AppState) : AppState :=
  if negb (truthy (transcript s)) then s
  else
    s |> setIsSubmitting true
      |> call in_analyzeSpeech
           (generateContent
              (prompt_analyzeSpeech (level s) (pronunciationPrompt s)
                 (transcript s))
              None (Some (instruction s))).

Definition greeting : ChatTurn.t :=
  ChatTurn.mk role_model "Hello! What would you like to talk about today?".

(** [initializeChat] creates the chat object locally and sends nothing. *)
Definition initializeChat (s : AppState) : AppState :=
  s |> setIsLoading true |> setChatHistory []
    |> setChat
         (Some (Chat.mk "gemini-2.5-flash"
                  (instruction s ++ " You are having a conversation with a "
                     ++ level s ++ " level English learner.")))
    |> setChatHistory [greeting] |> setIsLoading false.

Definition sendChatMessage (s : AppState) : AppState :=
  if negb (truthy (chatMessage s)) then s
  else
    match chat s with
    | None => s
    | Some c =>
        let userMessage := chatMessage s in
        s |> setChatMessage ""
          |> setChatHistory (chatHistory s ++ [ChatTurn.mk role_user userMessage])
          |> setIsSubmitting true
          |> call in_sendChatMessage
               (mkRequest chat_sendMessage (Chat.model c)
                  (prompt_chat userMessage) None
                  (Some (Chat.systemInstruction c)))
    end.

Definition searchDictionary (s : AppState) : AppState :=
  if negb (truthy (dictionaryWord s)) then s
  else
    s |> setIsSubmitting true |> setDictionaryResult None
      |> call in_searchDictionary
           (generateContent (prompt_dictionary (dictionaryWord s))
              (Some schema_dictionary) None).

Definition generateVocabulary (s : AppState) : AppState :=
  s |> setIsLoading true |> setVocabularyList []
    |> call in_generateVocabulary
         (generateContent (prompt_vocabulary (level s))
            (Some schema_vocabulary) None).

Definition generateTranslationTask (s : AppState) : AppState :=
  s |> setIsLoading true |> setUserTranslation ""
    |> setTranslationTask (TranslationTask.mk "" "")
    |> call in_generateTranslationTask
         (generateContent (prompt_translationTask (level s)) None None).

Definition checkTranslation (s : AppState) : AppState :=
  if negb (truthy (userTranslation s)) then s
  else
    s |> setIsSubmitting true
      |> call in_checkTranslation
           (generateContent
              (prompt_checkTranslation (level s)
                 (TranslationTask.sentence (translationTask s))
                 (userTranslation s))
              None (Some (instruction s))).

Definition analyzeWriting (s : AppState) : AppState :=
  if negb (truthy (writingInput s)) then s
  else
    s |> setIsSubmitting true |> setWritingFeedback None
      |> call in_analyzeWriting
           (generateContent (prompt_analyzeWriting (level s) (writingInput s))
              (Some schema_writing) (Some (instruction s))).

Definition generatePhrasalVerb (s : AppState) : AppState :=
  s |> setIsLoading true |> setPhrasalVerb None
    |> call in_generatePhrasalVerb
         (generateContent (prompt_phrasalVerb (level s))
            (Some schema_phrasalVerb) None).

Definition generateCommonPhrase (s : AppState) : AppState :=
  s |> setIsLoading true |> setCommonPhrase None
    |> call in_generateCommonPhrase
         (generateContent (prompt_commonPhrase (level s))
            (Some schema_phrase) None).

(** [changeView] (lines 177-191). *)
Definition changeView (view : View) (s : AppState) : AppState :=
  let s1 := s |> setError "" |> setActiveView view in
  let s2 := if negb (is_exams view) then s1 |> setExamState setup else s1 in
  match view with
  | v_story => generateStory s2
  | v_pronunciation => generatePronunciationPrompt s2
  | v_conversation => initializeChat s2
  | v_vocabulary => generateVocabulary s2
  | v_translation => generateTranslationTask s2
  | v_writingAnalysis => s2 |> setWritingInput "" |> setWritingFeedback None
  | v_phrasalVerbs => generatePhrasalVerb s2
  | v_phrases => generateCommonPhrase s2
  | _ => s2
  end.

(** *** Exam functions (lines 373-479) *)

Definition startExam (s : AppState) : AppState :=
  s |> setIsLoading true |> setExamQuestions [] |> setUserAnswers []
    |> setCurrentQuestionIndex 0 |> setCurrentAnswer ""
    |> setExamResults None
    |> call in_startExam
         (generateContent
            (prompt_exam (ExamSettings.type (examSettings s))
               (ExamSettings.questions (examSettings s)) (level s))
            (Some schema_questions) None).

Definition gradeExam (finalAnswers : list UserAnswer.t) (s : AppState)
  : AppState :=
  s |> setIsLoading true |> setExamState results
    |> call in_gradeExam
         (generateContent
            (prompt_grade (level s) (examQuestions s) finalAnswers)
            (Some schema_result) (Some (instruction s))).

(** [[...userAnswers.filter(a => a.questionId !== newAnswer.questionId),
    newAnswer]] *)
Definition updateAnswers (newAnswer : UserAnswer.t)
  (answers : list UserAnswer.t) : list UserAnswer.t :=
  filter (fun a =>
            negb (UserAnswer.questionId a =? UserAnswer.questionId newAnswer)%Z)
    answers
  ++ [newAnswer].

(** [handleNextQuestion].  [None] is the [TypeError] of its first line when
    [examQuestions[currentQuestionIndex]] is undefined, which happens before
    any setter is called.  [nextQuestionAnswer?.answer || ''] is the answer
    found, the empty string when none is found (an empty answer found gives
    the empty string on either side of [||]). *)
Definition handleNextQuestion (s : AppState) : option AppState :=
  match nth_error (examQuestions s) (currentQuestionIndex s) with
  | None => None
  | Some question =>
      let newAnswer :=
        UserAnswer.mk (ExamQuestion.id question) (currentAnswer s) in
      let updatedAnswers := updateAnswers newAnswer (userAnswers s) in
      let s1 := s |> setUserAnswers updatedAnswers in
      if (Z.of_nat (currentQuestionIndex s)
          <? Z.of_nat (List.length (examQuestions s)) - 1)%Z
      then
        let s2 := s1 |> setCurrentQuestionIndex (currentQuestionIndex s + 1) in
        match nth_error (examQuestions s) (currentQuestionIndex s + 1) with
        | None => Some s2
        | Some next =>
            let nextQuestionAnswer :=
              find (fun a =>
                      (UserAnswer.questionId a =? ExamQuestion.id next)%Z)
                updatedAnswers in
            Some (s2 |> setCurrentAnswer
                          match nextQuestionAnswer with
                          | Some a => UserAnswer.answer a
                          | None => ""
                          end)
        end
      else Some (gradeExam updatedAnswers s1)
  end.

(** The button of the results view:
    [setExamState('setup'); setExamResults(null)]. *)
Definition takeAnotherExam (s : AppState) : AppState :=
  s |> setExamState setup |> setExamResults None.

(** ** The handlers after their [await] *)

Definition createError : string :=
  "Failed to create the exam. Please try again.".

Definition gradeError : string :=
  "Failed to grade the exam. Please try again later.".

(** [resume k r s] runs what follows the [await] of [k] on the reply [r].
    A body that [JSON.parse] rejects throws out of the handlers that have
    no [try] around it, which leaves the state as it is at that point.  The
    result is [None] for a body that is no answer to what [k] asked for. *)
Definition resume (k : Awaiter) (r : Reply) (s : AppState) : option AppState :=
  let '(s1, response) := generateContent_reply r s in
  match k with
  | in_handleMouseUp rectLeft rectBottom =>
      match r with
      | resolved (Text t) =>
          Some (s |> setPopup
                       (Popup.mk t (Popup.x (popup s)) (Popup.y (popup s))
                          false (Popup.original (popup s))))
      | resolved _ => None
      | rejected =>
          Some (s |> setPopup
                       (Popup.mk "Translation failed."
                          (rectLeft + fst (scroll s))
                          (rectBottom + snd (scroll s) + 5) false None))
      end
  | in_generateWordOfTheDay =>
      match response with
      | None => Some s1
      | Some (JsonWord w) => Some (s1 |> setWordOfTheDay (Some w))
      | Some NotJson => Some s1
      | Some _ => None
      end
  | in_generateStory =>
      match response with
      | None => Some (s1 |> setIsLoading false)
      | Some (JsonStory t q) =>
          Some (s1 |> setStory (Story.mk t q) |> setIsLoading false)
      | Some NotJson => Some s1
      | Some _ => None
      end
  | in_checkStoryAnswer =>
      match response with
      | None => Some (s1 |> setIsSubmitting false)
      | Some (Text t) => Some (s1 |> setStoryFeedback t |> setIsSubmitting false)
      | Some _ => None
      end
  | in_generatePronunciationPrompt =>
      match response with
      | None => Some (s1 |> setIsLoading false)
      | Some (Text t) =>
          Some (s1 |> setPronunciationPrompt t |> setIsLoading false)
      | Some _ => None
      end
  | in_analyzeSpeech =>
      match response with
      | None => Some (s1 |> setIsSubmitting false)
      | Some (Text t) =>
          Some (s1 |> setPronunciationFeedback t |> setIsSubmitting false)
      | Some _ => None
      end
  | in_sendChatMessage =>
      match r with
      | rejected => Some s
      | resolved (Text t) =>
          Some (s |> setChatHistory (chatHistory s ++ [ChatTurn.mk role_model t])
                  |> setIsSubmitting false)
      | resolved _ => None
      end
  | in_searchDictionary =>
      match response with
      | None => Some (s1 |> setIsSubmitting false)
      | Some (JsonDictionary d) =>
          Some (s1 |> setDictionaryResult (Some d) |> setIsSubmitting false)
      | Some NotJson => Some s1
      | Some _ => None
      end
  | in_generateVocabulary =>
      match response with
      | None => Some (s1 |> setIsLoading false)
      | Some (JsonVocabulary l) =>
          Some (s1 |> setVocabularyList l |> setIsLoading false)
      | Some NotJson => Some s1
      | Some _ => None
      end
  | in_generateTranslationTask =>
      match response with
      | None => Some (s1 |> setIsLoading false)
      | Some (Text t) =>
          Some (s1 |> setTranslationTask (TranslationTask.mk t "")
                   |> setIsLoading false)
      | Some _ => None
      end
  | in_checkTranslation =>
      match response with
      | None => Some (s1 |> setIsSubmitting false)
      | Some (Text t) =>
          Some (s1 |> setTranslationTask
                        (TranslationTask.mk
                           (TranslationTask.sentence (translationTask s1)) t)
                   |> setIsSubmitting false)
      | Some _ => None
      end
  | in_analyzeWriting =>
      match response with
      | None => Some (s1 |> setIsSubmitting false)
      | Some (JsonWriting w) =>
          Some (s1 |> setWritingFeedback (Some w) |> setIsSubmitting false)
      | Some NotJson => Some s1
      | Some _ => None
      end
  | in_generatePhrasalVerb =>
      match response with
      | None => Some (s1 |> setIsLoading false)
      | Some (JsonPhrasalVerb p) =>
          Some (s1 |> setPhrasalVerb (Some p) |> setIsLoading false)
      | Some NotJson => Some s1
      | Some _ => None
      end
  | in_generateCommonPhrase =>
      match response with
      | None => Some (s1 |> setIsLoading false)
      | Some (JsonPhrase p) =>
          Some (s1 |> setCommonPhrase (Some p) |> setIsLoading false)
      | Some NotJson => Some s1
      | Some _ => None
      end
  | in_startExam =>
      match response with
      | None => Some (s1 |> setIsLoading false)
      | Some (JsonQuestions questions) =>
          Some (s1 |> setExamQuestions questions |> setExamState in_progress
                   |> setIsLoading false)
      | Some NotJson => Some (s1 |> setError createError |> setIsLoading false)
      | Some _ => None
      end
  | in_gradeExam =>
      match response with
      | None =>
          Some (s1 |> setError gradeError |> setExamState setup
                   |> setIsLoading false)
      | Some (JsonResult parsed) =>
          Some (s1 |> setExamResults (Some parsed) |> setIsLoading false)
      | Some NotJson =>
          Some (s1 |> setError gradeError |> setExamState setup
                   |> setIsLoading false)
      | Some _ => None
      end
  end.

(** *** Settings *)

Inductive SettingChange :=
| change_difficulty (d : Difficulty)
| change_theme (t : Theme)
| change_persona (p : Persona).

Definition handleSettingChange (c : SettingChange) (s : AppState) : AppState :=
  let prev := settings s in
  s |> setSettings
         match c with
         | change_difficulty d => mkSettings d (theme prev) (persona prev)
         | change_theme t => mkSettings (difficulty prev) t (persona prev)
         | change_persona p => mkSettings (difficulty prev) (theme prev) p
         end.

Inductive ExamSettingChange :=
| change_type (t : ExamType)
| change_questions (n : QuestionCount).

Definition handleExamSettingChange (c : ExamSettingChange) (s : AppState)
  : AppState :=
  let prev := examSettings s in
  s |> setExamSettings
         match c with
         | change_type t => ExamSettings.mk t (ExamSettings.questions prev)
         | change_questions n => ExamSettings.mk (ExamSettings.type prev) n
         end.

(** ** What the exams view shows (lines 706-807) *)

Record FeedbackView := mkFeedbackView
  { item_key : Z; item_correct : bool; item_question : string;
    item_answer : string; item_feedback : string }.

Definition feedbackItem (item : Feedback.t) : FeedbackView :=
  mkFeedbackView (Feedback.questionId item) (Feedback.isCorrect item)
    (Feedback.questionText item) (Feedback.userAnswer item)
    (Feedback.feedback item).

Inductive ExamView :=
| view_skeleton
| view_grading
| view_results (overallScore : Z) (summary : string)
    (items : list FeedbackView)
| view_loadingQuestions
| view_question (number total : nat) (question : ExamQuestion.t)
    (answer : string) (nextDisabled : bool) (nextLabel : string)
| view_setup (chosen : ExamSettings.t) (startDisabled : bool).

(** [renderExams].  [None] is the [TypeError] of [question.text] when
    [examQuestions[currentQuestionIndex]] is undefined. *)
Definition renderExams (s : AppState) : option ExamView :=
  if isLoading s && negb (is_results (examState s)) then Some view_skeleton
  else
    match examState s with
    | results =>
        match examResults s with
        | None => Some view_grading
        | Some r =>
            if isLoading s then Some view_grading
            else
              Some (view_results (ExamResult.overallScore r)
                      (ExamResult.summary r)
                      (map feedbackItem (ExamResult.feedback r)))
        end
    | in_progress =>
        match examQuestions s with
        | [] => Some view_loadingQuestions
        | _ :: _ =>
            match nth_error (examQuestions s) (currentQuestionIndex s) with
            | None => None
            | Some question =>
                Some (view_question (currentQuestionIndex s + 1)
                        (List.length (examQuestions s)) question
                        (currentAnswer s) (negb (truthy (currentAnswer s)))
                        (if (Z.of_nat (currentQuestionIndex s)
                             <? Z.of_nat (List.length (examQuestions s)) - 1)%Z
                         then "Next Question" else "Finish & Grade Exam"))
            end
        end
    | setup => Some (view_setup (examSettings s) (isLoading s))
    end.

(** ** Events *)

Inductive Event :=
(* the navigation and the settings panel, rendered with every view *)
| ChangeView (view : View)
| HandleSettingChange (c : SettingChange)
| SetIsSettingsOpen (b : bool)
(* the document and the window *)
| MouseUp (outsidePopup : bool) (selectedText : string)
    (inMain inField : bool) (rectLeft rectBottom : Z)
| Scroll (scrollX scrollY : Z)
| Elapse (milliseconds : N)
(* the controls of the views *)
| TypeStoryAnswer (v : string)
| SubmitStoryAnswer
| ClickRecord
| RecognitionResult (fullTranscript : string)
| ClickAnalyzeSpeech
| TypeChatMessage (v : string)
| SubmitChatMessage
| TypeDictionaryWord (v : string)
| SubmitDictionary
| ClickNewList
| TypeTranslation (v : string)
| SubmitTranslation
| ClickNextTask
| TypeWriting (v : string)
| SubmitWriting
| ClickNextVerb
| ClickNextPhrase
(* the controls of the exams view *)
| HandleExamSettingChange (c : ExamSettingChange)
| ClickStartExam
| ClickOption (option : string)
| TypeAnswer (v : string)
| ClickNext
| ClickTakeAnother
(* the reply to the [i]-th outstanding call *)
| Replied (i : nat) (r : Reply).

Definition is_mcq (t : QuestionType) : bool :=
  match t with mcq => true | _ => false end.

(** The controls of the exams view that the rendered branch contains and
    does not disable. *)
Definition examControl (s : AppState) (e : Event) : bool :=
  match renderExams s with
  | Some (view_setup _ startDisabled) =>
      match e with
      | HandleExamSettingChange _ => true
      | ClickStartExam => negb startDisabled
      | _ => false
      end
  | Some (view_question _ _ question _ nextDisabled _) =>
      match e with
      | ClickOption o =>
          is_mcq (ExamQuestion.type question)
          && match ExamQuestion.options question with
             | Some os => existsb (String.eqb o) os
             | None => false
             end
      | TypeAnswer _ => negb (is_mcq (ExamQuestion.type question))
      | ClickNext => negb nextDisabled
      | _ => false
      end
  | Some (view_results _ _ _) =>
      match e with ClickTakeAnother => true | _ => false end
  | _ => false
  end.

(** [offered s e]: the page rendered from [s] lets [e] happen.  A control
    is offered when the active view renders it and does not disable it
    (lines 517-807); the document listener, the window and the network are
    there throughout; the recogniser reports to its [onresult] handler
    once one is assigned, which [recognition.stop()] does not undo. *)
Definition offered (s : AppState) (e : Event) : bool :=
  let shown v := view_eqb (activeView s) v in
  match e with
  | ChangeView _ | HandleSettingChange _ | SetIsSettingsOpen _ => true
  | MouseUp _ _ _ _ _ _ | Scroll _ _ | Elapse _ | Replied _ _ => true
  | TypeStoryAnswer _ => shown v_story && negb (isLoading s)
  | SubmitStoryAnswer =>
      shown v_story && negb (isLoading s)
      && negb (isSubmitting s || negb (truthy (storyAnswer s)))
  | ClickRecord => shown v_pronunciation
  | RecognitionResult _ =>
      match recognition s with Some assigned => assigned | None => false end
  | ClickAnalyzeSpeech =>
      shown v_pronunciation && truthy (transcript s) && negb (isSubmitting s)
  | TypeChatMessage _ => shown v_conversation && negb (isLoading s)
  | SubmitChatMessage =>
      shown v_conversation && negb (isLoading s)
      && negb (isSubmitting s || negb (truthy (chatMessage s)))
  | TypeDictionaryWord _ => shown v_dictionary
  | SubmitDictionary =>
      shown v_dictionary
      && negb (isSubmitting s || negb (truthy (dictionaryWord s)))
  | ClickNewList => shown v_vocabulary && negb (isLoading s)
  | TypeTranslation _ | ClickNextTask =>
      shown v_translation && negb (isLoading s)
  | SubmitTranslation =>
      shown v_translation && negb (isLoading s)
      && negb (isSubmitting s || negb (truthy (userTranslation s)))
  | TypeWriting _ => shown v_writingAnalysis
  | SubmitWriting =>
      shown v_writingAnalysis
      && negb (isSubmitting s || negb (truthy (writingInput s)))
  | ClickNextVerb =>
      shown v_phrasalVerbs && negb (isLoading s) && is_some (phrasalVerb s)
  | ClickNextPhrase =>
      shown v_phrases && negb (isLoading s) && is_some (commonPhrase s)
  | HandleExamSettingChange _ | ClickStartExam | ClickOption _
  | TypeAnswer _ | ClickNext | ClickTakeAnother =>
      shown v_exams && examControl s e
  end.

(** The page is gone once rendering throws: the component has no error
    boundary. *)
Definition crashed (s : AppState) : bool :=
  is_exams (activeView s) && negb (is_some (renderExams s)).

(** ** One step of the component *)

Definition step (s : AppState) (e : Event) : option AppState :=
  if crashed s || negb (offered s e) then None
  else
    match e with
    | ChangeView view => Some (changeView view s)
    | HandleSettingChange c => Some (handleSettingChange c s)
    | SetIsSettingsOpen b => Some (s |> setIsSettingsOpen b)
    | MouseUp outsidePopup selectedText inMain inField rectLeft rectBottom =>
        Some (handleMouseUp outsidePopup selectedText inMain inField
                rectLeft rectBottom s)
    | Scroll scrollX scrollY => Some (s |> setScroll (scrollX, scrollY))
    | Elapse _ => Some s
    | TypeStoryAnswer v => Some (s |> setStoryAnswer v)
    | SubmitStoryAnswer => Some (checkStoryAnswer s)
    | ClickRecord => Some (handlePronunciation s)
    | RecognitionResult fullTranscript => Some (onresult fullTranscript s)
    | ClickAnalyzeSpeech => Some (analyzeSpeech s)
    | TypeChatMessage v => Some (s |> setChatMessage v)
    | SubmitChatMessage => Some (sendChatMessage s)
    | TypeDictionaryWord v => Some (s |> setDictionaryWord v)
    | SubmitDictionary => Some (searchDictionary s)
    | ClickNewList => Some (generateVocabulary s)
    | TypeTranslation v => Some (s |> setUserTranslation v)
    | SubmitTranslation => Some (checkTranslation s)
    | ClickNextTask => Some (generateTranslationTask s)
    | TypeWriting v => Some (s |> setWritingInput v)
    | SubmitWriting => Some (analyzeWriting s)
    | ClickNextVerb => Some (generatePhrasalVerb s)
    | ClickNextPhrase => Some (generateCommonPhrase s)
    | HandleExamSettingChange c => Some (handleExamSettingChange c s)
    | ClickStartExam => Some (startExam s)
    | ClickOption o => Some (s |> setCurrentAnswer o)
    | TypeAnswer v => Some (s |> setCurrentAnswer v)
    | ClickNext => handleNextQuestion s
    | ClickTakeAnother => Some (takeAnotherExam s)
    | Replied i r =>
        match nth_error (inflight s) i with
        | None => None
        | Some (k, _) =>
            resume k r (s |> setInflight (remove_nth i (inflight s)))
        end
    end.

(** A run: the events of a list, one after the other. *)
Fixpoint run (s : AppState) (events : list Event) : option AppState :=
  match events with
  | [] => Some s
  | e :: rest =>
      match step s e with
      | Some s' => run s' rest
      | None => None
      end
  end.

(** The hooks at their initial values (lines 80-120), in a browser that
    has speech recognition. *)
Definition initial : AppState :=
  {| settings := mkSettings A1 light friendly;
     activeView := v_home;
     error := "";
     isLoading := false;
     isSubmitting := false;
     wordOfTheDay := None;
     isSettingsOpen := false;
     story := Story.mk "" "";
     storyAnswer := "";
     storyFeedback := "";
     pronunciationPrompt := "";
     pronunciationFeedback := "";
     isRecording := false;
     transcript := "";
     chat := None;
     chatHistory := [];
     chatMessage := "";
     dictionaryWord := "";
     dictionaryResult := None;
     vocabularyList := [];
     translationTask := TranslationTask.mk "" "";
     userTranslation := "";
     writingInput := "";
     writingFeedback := None;
     phrasalVerb := None;
     commonPhrase := None;
     examState := setup;
     examSettings := ExamSettings.mk comprehensive five;
     examQuestions := [];
     currentQuestionIndex := 0;
     userAnswers := [];
     currentAnswer := "";
     examResults := None;
     popup := emptyPopup;
     recognition := Some false;
     scroll := (0, 0)%Z;
     inflight := [] |}.

(** The component once mounted: the effect with the empty dependency list
    (lines 137-139) has called [generateWordOfTheDay]. *)
Definition mounted : AppState := generateWordOfTheDay initial.

(** The same in a browser without speech recognition. *)
Definition mounted_without_speech : AppState :=
  generateWordOfTheDay (initial |> setRecognition None).

Inductive reachable : AppState -> Prop :=
| reachable_mounted : reachable mounted
| reachable_mounted_without_speech : reachable mounted_without_speech
| reachable_step s e s' : reachable s -> step s e = Some s' -> reachable s'.

(** ** Notions used in the statements *)

(** The test of [handleNextQuestion] fails: the question shown is the last
    one. *)
Definition lastQuestion (s : AppState) : Prop :=
  (Z.of_nat (currentQuestionIndex s)
   <? Z.of_nat (List.length (examQuestions s)) - 1)%Z = false.

(** The answer [handleNextQuestion] records for the question [q]. *)
Definition newAnswer (s : AppState) (q : ExamQuestion.t) : UserAnswer.t :=
  UserAnswer.mk (ExamQuestion.id q) (currentAnswer s).

Definition is_elapse (e : Event) : bool :=
  match e with Elapse _ => true | _ => false end.

Definition gemini (kr : Awaiter * Request) : Prop :=
  model (snd kr) = "gemini-2.5-flash".

(** The state a run from the mounted component ends in. *)
Definition state_after (events : list Event) : AppState :=
  match run mounted events with Some s => s | None => mounted end.

(** ** Sample data and runs *)

Definition question1 : ExamQuestion.t :=
  ExamQuestion.mk 1 writing "Describe your day." None.

Definition question2 : ExamQuestion.t :=
  ExamQuestion.mk 2 mcq "Choose the past tense of go."
    (Some ["goed"; "went"; "gone"; "going"]).

Definition result1 : ExamResult.t :=
  ExamResult.mk 80 "Good work."
    [Feedback.mk 1 "Describe your day." "I work." true "Clear."].

(** On mount the word-of-the-day call is outstanding at position 0; the
    exam request of [ClickStartExam] comes at position 1. *)
Definition exam_started : list Event :=
  [ChangeView v_exams; ClickStartExam;
   Replied 1 (resolved (JsonQuestions [question1; question2]))].

Definition exam_finished : list Event :=
  exam_started
  ++ [TypeAnswer "I work."; ClickNext; ClickOption "went"; ClickNext].

(** A second [startExam] while the first is outstanding: the vocabulary
    view is visited in between and its reply clears [isLoading]; the reply
    to the second call arrives after one question has been answered. *)
Definition overlapping_starts : list Event :=
  [ChangeView v_exams; ClickStartExam;
   ChangeView v_vocabulary; Replied 2 (resolved (JsonVocabulary []));
   ChangeView v_exams; ClickStartExam;
   Replied 1 (resolved (JsonQuestions [question1; question2]));
   TypeAnswer "I work."; ClickNext;
   Replied 1 (resolved (JsonQuestions [question1]))].

(** A one-question exam is finished and its grading is outstanding; the
    vocabulary view is visited, a second exam is taken to its end, and only
    then the grading of the first exam arrives. *)
Definition stale_grading : list Event :=
  [ChangeView v_exams; ClickStartExam;
   Replied 1 (resolved (JsonQuestions [question1]));
   TypeAnswer "I work."; ClickNext;
   ChangeView v_vocabulary; Replied 2 (resolved (JsonVocabulary []));
   ChangeView v_exams; ClickStartExam;
   Replied 2 (resolved (JsonQuestions [question1]));
   TypeAnswer "I rest."; ClickNext;
   Replied 1 (resolved (JsonResult result1))].

Definition same_exam_data (s s' : AppState) : Prop :=
  currentQuestionIndex s' = currentQuestionIndex s
  /\ examQuestions s' = examQuestions s
  /\ userAnswers s' = userAnswers s
  /\ examResults s' = examResults s.

Definition answerIds (answers : list UserAnswer.t) : list Z :=
  map UserAnswer.questionId answers.

(** The answers recorded under the identifier [qid]. *)
Definition answersFor (qid : Z) (answers : list UserAnswer.t)
  : list UserAnswer.t :=
  filter (fun a => (UserAnswer.questionId a =? qid)%Z) answers.

(** The handlers that call the API through [generateContent]; the popup
    and the chat call the client themselves. *)
Definition via_generateContent (k : Awaiter) : bool :=
  match k with
  | in_handleMouseUp _ _ | in_sendChatMessage => false
  | _ => true
  end.

Definition is_gradeExam (k : Awaiter) : bool :=
  match k with in_gradeExam => true | _ => false end.

(** A chat message is sent and the call is rejected. *)
Definition chat_rejected : list Event :=
  [ChangeView v_conversation; TypeChatMessage "Hello"; SubmitChatMessage;
   Replied 1 rejected].

Definition chat_gemini (s : AppState) : Prop :=
  forall c, chat s = Some c -> Chat.model c = "gemini-2.5-flash".

Definition chat_sent : list Event :=
  [MouseUp true "hello" true false 10 20;
   ChangeView v_conversation; TypeChatMessage "Hello"; SubmitChatMessage].

(** The event by which the user gives the answer [a] to the question [q]:
    a click on an option for a multiple-choice question, typing into the
    textarea otherwise. *)
Definition answerEvent (q : ExamQuestion.t) (a : string) : Event :=
  if is_mcq (ExamQuestion.type q) then ClickOption a else TypeAnswer a.

(** The page lets the user give [a] and go on: [a] is not empty, and for a
    multiple-choice question it is one of the options. *)
Definition answerable (q : ExamQuestion.t) (a : string) : Prop :=
  a <> ""
  /\ (is_mcq (ExamQuestion.type q) = true ->
      exists os, ExamQuestion.options q = Some os /\ In a os).

(** Answering the questions [qs] in order with [answers]. *)
Fixpoint examEvents (qs : list ExamQuestion.t) (answers : list string)
  : list Event :=
  match qs, answers with
  | q :: qs', a :: answers' =>
      answerEvent q a :: ClickNext :: examEvents qs' answers'
  | _, _ => []
  end.

(** The answers as [handleNextQuestion] records them. *)
Fixpoint recorded (qs : list ExamQuestion.t) (answers : list string)
  : list UserAnswer.t :=
  match qs, answers with
  | q :: qs', a :: answers' =>
      UserAnswer.mk (ExamQuestion.id q) a :: recorded qs' answers'
  | _, _ => []
  end.

(** The grading request for the questions and answers of [s]. *)
Definition gradingRequest (s : AppState) (answers : list UserAnswer.t)
  : Awaiter * Request :=
  (in_gradeExam,
   mkRequest models_generateContent "gemini-2.5-flash"
     (prompt_grade (difficultyLevels (difficulty (settings s)))
        (examQuestions s) answers)
     (Some schema_result)
     (Some (personaInstructions (persona (settings s))))).

Definition is_examControl (e : Event) : bool :=
  match e with
  | HandleExamSettingChange _ | ClickStartExam | ClickOption _
  | TypeAnswer _ | ClickNext | ClickTakeAnother => true
  | _ => false
  end.

(** The views whose opening fetches content. *)
Definition fetches (v : View) : bool :=
  match v with
  | v_story | v_pronunciation | v_vocabulary | v_translation
  | v_phrasalVerbs | v_phrases => true
  | _ => false
  end.

(** The handlers that run [JSON.parse] on the reply with no [try] around
    it. *)
Definition parses_unguarded (k : Awaiter) : bool :=
  match k with
  | in_generateWordOfTheDay | in_generateStory | in_searchDictionary
  | in_generateVocabulary | in_analyzeWriting | in_generatePhrasalVerb
  | in_generateCommonPhrase => true
  | _ => false
  end.

(** A story is asked for and the reply is not JSON. *)
Definition story_unparsable : list Event :=
  [ChangeView v_story; Replied 1 (resolved NotJson)].

Definition opens_with_greeting (s : AppState) : Prop :=
  exists c rest, chat s = Some c /\ chatHistory s = greeting :: rest.

(** What [TranslationPopup] renders (lines 911-920): nothing without
    [popup.original], the loader while loading, the original and its
    translation otherwise, at [top: y, left: x]. *)
Inductive PopupView :=
| popup_loader (top left : Z)
| popup_translation (top left : Z) (original text : string).

Definition TranslationPopup (s : AppState) : option PopupView :=
  match Popup.original (popup s) with
  | None => None
  | Some original =>
      if negb (truthy original) then None
      else if Popup.loading (popup s)
           then Some (popup_loader (Popup.y (popup s)) (Popup.x (popup s)))
           else Some (popup_translation (Popup.y (popup s)) (Popup.x (popup s))
                        original (Popup.text (popup s)))
  end.

(** A selection of 98 letters and an accented one: 99 UTF-16 code units,
    100 bytes. *)
Definition accented_selection : string :=
  "aaaaaaaaaaaaaaaaaaaaaaaaaaaaaaaaaaaaaaaaaaaaaaaaaaaaaaaaaaaaaaaaaaaaaaaaaaaaaaaaaaaaaaaaaaaaaaaaaa" ++ "é".

(** The selection is one that [handleMouseUp] translates. *)
Definition translatable (selectedText : string) (inMain inField : bool)
  : bool :=
  (0 <? jsLength selectedText)%nat
  && (jsLength selectedText <? 100)%nat && inMain && negb inField.

Definition is_wordCall (kr : Awaiter * Request) : bool :=
  match fst kr with in_generateWordOfTheDay => true | _ => false end.

Definition wordCalls (s : AppState) : nat :=
  List.length (filter is_wordCall (inflight s)).

Definition is_submit (e : Event) : bool :=
  match e with
  | SubmitStoryAnswer | ClickAnalyzeSpeech | SubmitChatMessage
  | SubmitDictionary | SubmitTranslation | SubmitWriting => true
  | _ => false
  end.

Definition is_startCall (kr : Awaiter * Request) : bool :=
  match fst kr with in_startExam => true | _ => false end.

Definition startCalls (s : AppState) : nat :=
  List.length (filter is_startCall (inflight s)).

(** The index is within the questions, if there are any. *)
Definition index_in_range (s : AppState) : Prop :=
  examQuestions s = []
  \/ currentQuestionIndex s < List.length (examQuestions s).

(** The states reached when Start Exam is never pressed while the reply
    to an earlier press is outstanding. *)
Inductive reachable_single_start : AppState -> Prop :=
| single_start_mounted : reachable_single_start mounted
| single_start_mounted_without_speech :
    reachable_single_start mounted_without_speech
| single_start_step s e s' :
    reachable_single_start s ->
    (e = ClickStartExam -> startCalls s = 0) ->
    step s e = Some s' ->
    reachable_single_start s'.

Definition single_start_inv (s : AppState) : Prop :=
  startCalls s <= 1
  /\ (startCalls s = 1 ->
      currentQuestionIndex s = 0 /\ examState s <> in_progress)
  /\ index_in_range s.







(** A third question that carries the identifier of the first. *)
Definition question3 : ExamQuestion.t :=
  ExamQuestion.mk 1 writing "Describe your evening." None.

(** An exam of three questions, the first two answered, the third one
    (with the identifier of the first) given an answer of its own. *)
Definition third_question_answered : list Event :=
  [ChangeView v_exams; ClickStartExam;
   Replied 1 (resolved (JsonQuestions [question1; question2; question3]));
   TypeAnswer "I work."; ClickNext; ClickOption "went"; ClickNext;
   TypeAnswer "I rest."].

(** A graded exam, left by Take Another Exam. *)
Definition exam_taken : list Event :=
  exam_finished
  ++ [Replied 1 (resolved (JsonResult result1)); ClickTakeAnother].

(** The loader flag a handler clears once its call is over (the
    [setIsLoading(false)] or [setIsSubmitting(false)] that ends it). *)
Definition clearsLoading (k : Awaiter) : bool :=
  match k with
  | in_generateStory | in_generatePronunciationPrompt
  | in_generateVocabulary | in_generateTranslationTask
  | in_generatePhrasalVerb | in_generateCommonPhrase
  | in_startExam | in_gradeExam => true
  | _ => false
  end.

Definition clearsSubmitting (k : Awaiter) : bool :=
  match k with
  | in_checkStoryAnswer | in_analyzeSpeech | in_searchDictionary
  | in_checkTranslation | in_analyzeWriting => true
  | _ => false
  end.


(** * Properties *)

(** ** Reading a step backwards *)

Ltac unfold_handlers :=
  unfold handleMouseUp, handleSettingChange, handleExamSettingChange,
    checkStoryAnswer, handlePronunciation, onresult, analyzeSpeech,
    sendChatMessage, searchDictionary, generateVocabulary,
    generateTranslationTask, checkTranslation, analyzeWriting,
    generatePhrasalVerb, generateCommonPhrase, startExam, takeAnotherExam,
    changeView, generateStory, generatePronunciationPrompt, initializeChat,
    generateWordOfTheDay, gradeExam, call in *.

Ltac case_if :=
  match goal with
  | |- context [if ?c then _ else _] => destruct c eqn:?
  | |- context [match ?x with Some _ => _ | None => _ end] => destruct x eqn:?
  end.

(** A successful step passed the guard: the page was up and offered the
    event. *)
Ltac step_inv H :=
  unfold step in H;
  match type of H with
  | (if ?c then _ else _) = _ =>
      let G := fresh "Hguard" in
      destruct c eqn:G; [discriminate H|];
      apply orb_false_elim in G; destruct G as [Hcrash G];
      apply negb_false_iff in G
  end.

Lemma view_eqb_eq a b : view_eqb a b = true -> a = b.
Proof. destruct a, b; simpl; congruence. Qed.

(** The branch of [renderExams] that holds a control of the exams view. *)
Ltac exam_branch H :=
  unfold offered, examControl, renderExams in H;
  apply andb_prop in H; destruct H as [?Hview H];
  apply view_eqb_eq in Hview;
  repeat match type of H with
    | context [isLoading ?s] => destruct (isLoading s) eqn:?; simpl in H
    | context [examState ?s] => destruct (examState s) eqn:?; simpl in H
    | context [examResults ?s] => destruct (examResults s) eqn:?; simpl in H
    | context [match examQuestions ?s with _ => _ end] =>
        destruct (examQuestions s) eqn:?; simpl in H
    | context [match nth_error ?l ?i with _ => _ end] =>
        destruct (nth_error l i) eqn:?; simpl in H
    end;
  try discriminate H.

Lemma offered_ClickNext s :
  offered s ClickNext = true ->
  activeView s = v_exams /\ examState s = in_progress /\ isLoading s = false
  /\ truthy (currentAnswer s) = true
  /\ exists q, nth_error (examQuestions s) (currentQuestionIndex s) = Some q.
Proof.
  intros H. exam_branch H.
  rewrite negb_involutive in H. repeat split; eauto.
Qed.

Lemma offered_ClickStartExam s :
  offered s ClickStartExam = true ->
  activeView s = v_exams /\ examState s = setup /\ isLoading s = false.
Proof. intros H. exam_branch H. auto. Qed.

Lemma offered_ClickTakeAnother s :
  offered s ClickTakeAnother = true ->
  activeView s = v_exams /\ examState s = results /\ isLoading s = false.
Proof. intros H. exam_branch H. auto. Qed.

Lemma offered_answer s e :
  (exists o, e = ClickOption o) \/ (exists v, e = TypeAnswer v) ->
  offered s e = true ->
  activeView s = v_exams /\ examState s = in_progress.
Proof. intros [[o ->]|[v ->]] H; exam_branch H; auto. Qed.

Lemma handleNextQuestion_Some s s' :
  handleNextQuestion s = Some s' ->
  exists q, nth_error (examQuestions s) (currentQuestionIndex s) = Some q
  /\ let updated := updateAnswers (newAnswer s q) (userAnswers s) in
     (~ lastQuestion s
       /\ exists a, s' = s |> setUserAnswers updated
                           |> setCurrentQuestionIndex (currentQuestionIndex s + 1)
                           |> setCurrentAnswer a)
     \/ (lastQuestion s /\ s' = gradeExam updated (s |> setUserAnswers updated)).
Proof.
  unfold handleNextQuestion, lastQuestion.
  destruct (nth_error (examQuestions s) (currentQuestionIndex s)) as [q|] eqn:Eq;
    [|discriminate].
  intros H. exists q. split; [reflexivity|]. cbv zeta.
  destruct (Z.of_nat (currentQuestionIndex s)
            <? Z.of_nat (List.length (examQuestions s)) - 1)%Z.
  - left. split; [discriminate|].
    destruct (nth_error (examQuestions s) (currentQuestionIndex s + 1));
      injection H as <-; eexists; reflexivity.
  - right. split; [reflexivity|]. now injection H as <-.
Qed.

(** How [examState] moves in one step: every way it can change. *)
Lemma examState_step s e s' :
  step s e = Some s' ->
  examState s' = examState s
  \/ (exists v, e = ChangeView v /\ is_exams v = false /\ examState s' = setup)
  \/ (e = ClickTakeAnother /\ examState s = results /\ examState s' = setup)
  \/ (e = ClickNext /\ examState s = in_progress /\ examState s' = results
      /\ lastQuestion s)
  \/ (exists i req qs, e = Replied i (resolved (JsonQuestions qs))
        /\ nth_error (inflight s) i = Some (in_startExam, req)
        /\ examState s' = in_progress)
  \/ (exists i req r, e = Replied i r
        /\ nth_error (inflight s) i = Some (in_gradeExam, req)
        /\ (r = rejected \/ r = resolved NotJson) /\ examState s' = setup).
Proof.
  intros H. step_inv H.
  destruct e;
    try (injection H as <-; unfold_handlers; repeat case_if; left; reflexivity).
  - (* ChangeView *)
    injection H as <-.
    destruct view;
      try (right; left; eexists; repeat split; reflexivity).
    left; reflexivity.
  - (* ClickNext *)
    apply offered_ClickNext in Hguard. destruct Hguard as (_ & Hs & _).
    apply handleNextQuestion_Some in H.
    destruct H as (q & _ & [[_ [a ->]] | [Hl ->]]).
    + left; reflexivity.
    + right; right; right; left. repeat split; auto.
  - (* ClickTakeAnother *)
    injection H as <-. apply offered_ClickTakeAnother in Hguard.
    right; right; left. repeat split; tauto.
  - (* Replied *)
    destruct (nth_error (inflight s) i) as [[k req]|] eqn:En; [|discriminate].
    destruct k; destruct r as [|[]]; simpl in H; try discriminate;
      injection H as <-; try (left; reflexivity).
    all: try (right; right; right; right; left; do 3 eexists;
              repeat split; eauto; fail).
    all: right; right; right; right; right; do 3 eexists; repeat split; eauto.
Qed.

Lemma run_app s tr1 tr2 :
  run s (tr1 ++ tr2) =
  match run s tr1 with Some s1 => run s1 tr2 | None => None end.
Proof.
  revert s. induction tr1 as [|e tr1 IH]; intros s; simpl; [reflexivity|].
  destruct (step s e); auto.
Qed.

Lemma run_reachable s tr s' :
  reachable s -> run s tr = Some s' -> reachable s'.
Proof.
  revert s. induction tr as [|e tr IH]; intros s Hs H; simpl in H.
  - now injection H as <-.
  - destruct (step s e) as [s1|] eqn:E; [|discriminate].
    eapply IH; [|exact H]. econstructor; eauto.
Qed.

(** ** C1 *)

(** With an exam in progress, a click on Home sets [examState] back to
    ['setup']. *)
Lemma C1_changeView_leaves_in_progress :
  exists s s',
    run mounted exam_started = Some s /\ examState s = in_progress
    /\ step s (ChangeView v_home) = Some s' /\ examState s' = setup.
Proof.
  eexists. eexists.
  split; [vm_compute; reflexivity|].
  split; [reflexivity|].
  split; [vm_compute; reflexivity|reflexivity].
Qed.

(** C1, amended: the exam follows the order setup, question delivery,
    grading.  [examState] becomes ['in-progress'] only by the reply to a
    [startExam] call that parses into questions; it becomes ['results'] only
    from ['in-progress'], by [handleNextQuestion] on the last question, so no
    step is skipped; and the user leaves ['in-progress'] in two ways only:
    that one, and [changeView] to a view other than the exams, which sets
    [examState] back to ['setup']. *)
Theorem C1_exam_state_order s e s' :
  step s e = Some s' ->
  (examState s' = in_progress -> examState s <> in_progress ->
     exists i req qs,
       e = Replied i (resolved (JsonQuestions qs))
       /\ nth_error (inflight s) i = Some (in_startExam, req))
  /\ (examState s' = results -> examState s <> results ->
        e = ClickNext /\ examState s = in_progress /\ lastQuestion s)
  /\ (examState s = in_progress -> examState s' <> in_progress ->
      (forall i r, e <> Replied i r) ->
        (e = ClickNext /\ lastQuestion s /\ examState s' = results)
        \/ (exists v, e = ChangeView v /\ v <> v_exams /\ examState s' = setup)).
Proof.
  intros H. apply examState_step in H.
  split; [|split].
  - intros H1 H2.
    destruct H as [H | [(v & -> & Hv & H) | [(-> & Hs & H) | [(-> & Hs & H & Hl)
      | [(i & req & qs & -> & Hn & H) | (i & req & r & -> & Hn & Hr & H)]]]]];
      try congruence.
    eauto.
  - intros H1 H2.
    destruct H as [H | [(v & -> & Hv & H) | [(-> & Hs & H) | [(-> & Hs & H & Hl)
      | [(i & req & qs & -> & Hn & H) | (i & req & r & -> & Hn & Hr & H)]]]]];
      try congruence.
    auto.
  - intros H1 H2 H3.
    destruct H as [H | [(v & -> & Hv & H) | [(-> & Hs & H) | [(-> & Hs & H & Hl)
      | [(i & req & qs & -> & Hn & H) | (i & req & r & -> & Hn & Hr & H)]]]]];
      try congruence.
    + right. exists v. repeat split; auto. intros ->. discriminate.
    + left. auto.
Qed.

Lemma C1_exam_state_order_witness :
  step (state_after exam_started) (ChangeView v_home)
  = Some (state_after (exam_started ++ [ChangeView v_home]))
  /\ (examState (state_after exam_started) = in_progress ->
      examState (state_after (exam_started ++ [ChangeView v_home]))
      <> in_progress ->
      (forall i r, ChangeView v_home <> Replied i r) ->
      (ChangeView v_home = ClickNext /\ lastQuestion (state_after exam_started)
       /\ examState (state_after (exam_started ++ [ChangeView v_home])) = results)
      \/ (exists v, ChangeView v_home = ChangeView v /\ v <> v_exams
          /\ examState (state_after (exam_started ++ [ChangeView v_home])) = setup)).
Proof.
  split; [vm_compute; reflexivity|].
  apply (C1_exam_state_order (state_after exam_started) (ChangeView v_home)
           (state_after (exam_started ++ [ChangeView v_home]))).
  vm_compute; reflexivity.
Defined.

(** ** Storing an answer *)

Lemma In_updateAnswers_new a answers : In a (updateAnswers a answers).
Proof. unfold updateAnswers. apply in_or_app. right. now left. Qed.

Lemma In_updateAnswers_old a b answers :
  In b answers -> UserAnswer.questionId b <> UserAnswer.questionId a ->
  In b (updateAnswers a answers).
Proof.
  intros Hin Hne. unfold updateAnswers. apply in_or_app. left.
  apply filter_In. split; [assumption|].
  apply negb_true_iff. now apply Z.eqb_neq.
Qed.

(** ** How a step treats the data of the exam *)

(** What the code after an [await] does to the data of the exam: only the
    reply to [startExam] stores questions, only the reply to [gradeExam]
    stores results, and none touches the index or the answers. *)
Lemma resume_exam_data k r s s' :
  resume k r s = Some s' ->
  currentQuestionIndex s' = currentQuestionIndex s
  /\ userAnswers s' = userAnswers s
  /\ (examQuestions s' = examQuestions s
      \/ exists qs, k = in_startExam /\ r = resolved (JsonQuestions qs)
                    /\ examQuestions s' = qs)
  /\ (examResults s' = examResults s
      \/ exists res, k = in_gradeExam /\ r = resolved (JsonResult res)
                     /\ examResults s' = Some res).
Proof.
  intros H.
  destruct k; destruct r as [|[]]; simpl in H; try discriminate;
    injection H as <-; simpl; repeat split; eauto.
Qed.

Lemma step_exam_data s e s' :
  step s e = Some s' ->
  match e with
  | ClickNext => handleNextQuestion s = Some s'
  | ClickStartExam => s' = startExam s
  | ClickTakeAnother => s' = takeAnotherExam s
  | Replied i r =>
      exists k req,
        nth_error (inflight s) i = Some (k, req)
        /\ resume k r (s |> setInflight (remove_nth i (inflight s))) = Some s'
  | _ => same_exam_data s s'
  end.
Proof.
  intros H. step_inv H.
  destruct e;
    try (injection H as <-; unfold_handlers; repeat case_if;
         repeat split; reflexivity).
  - injection H as <-. destruct view; repeat split; reflexivity.
  - exact H.
  - destruct (nth_error (inflight s) i) as [[k req]|]; [|discriminate]. eauto.
Qed.

Lemma renderExams_question s n t q a d l :
  renderExams s = Some (view_question n t q a d l) ->
  nth_error (examQuestions s) (currentQuestionIndex s) = Some q
  /\ n = currentQuestionIndex s + 1 /\ t = List.length (examQuestions s).
Proof.
  unfold renderExams.
  destruct (isLoading s && negb (is_results (examState s))); [discriminate|].
  destruct (examState s); try discriminate.
  - destruct (examQuestions s) as [|q0 qs]; [discriminate|].
    destruct (nth_error (q0 :: qs) (currentQuestionIndex s)); [|discriminate].
    intros H. injection H as <- <- <- _ _ _. auto.
  - destruct (examResults s); [destruct (isLoading s)|]; discriminate.
Qed.

(** ** C9 *)

Lemma answersFor_updateAnswers a answers :
  answersFor (UserAnswer.questionId a) (updateAnswers a answers) = [a].
Proof.
  unfold answersFor, updateAnswers. rewrite filter_app. simpl.
  rewrite Z.eqb_refl.
  replace (filter _ (filter _ answers)) with (@nil UserAnswer.t); [reflexivity|].
  induction answers as [|b l IH]; simpl; [reflexivity|].
  destruct (UserAnswer.questionId b =? UserAnswer.questionId a)%Z eqn:E; simpl.
  - exact IH.
  - rewrite E. exact IH.
Qed.

Lemma NoDup_updateAnswers a answers :
  NoDup (answerIds answers) -> NoDup (answerIds (updateAnswers a answers)).
Proof.
  intros Hnd. unfold answerIds, updateAnswers. rewrite map_app. simpl.
  apply NoDup_app.
  - induction answers as [|b l IH]; simpl; [constructor|].
    inversion Hnd as [|x xs Hnotin Hnd']; subst.
    destruct (negb (UserAnswer.questionId b =? UserAnswer.questionId a)%Z);
      simpl; auto.
    constructor; auto.
    intros Hin. apply Hnotin. apply in_map_iff in Hin.
    destruct Hin as (c & Hc & Hin). apply filter_In in Hin.
    apply in_map_iff. exists c. tauto.
  - constructor; [intros []|constructor].
  - intros x Hin [<-|[]]. apply in_map_iff in Hin.
    destruct Hin as (c & Hc & Hin). apply filter_In in Hin.
    destruct Hin as [_ Hin]. apply negb_true_iff, Z.eqb_neq in Hin. auto.
Qed.

(** The stored answers never hold two entries for one question. *)
Lemma reachable_answers_NoDup s :
  reachable s -> NoDup (answerIds (userAnswers s)).
Proof.
  induction 1 as [| |s e s' _ IH H].
  - constructor.
  - constructor.
  - pose proof (step_exam_data _ _ _ H) as D.
    destruct e; try (destruct D as (_ & _ & -> & _); exact IH).
    + subst s'. constructor.
    + apply handleNextQuestion_Some in D.
      destruct D as (q & _ & [[_ [a ->]] | [_ ->]]); simpl;
        now apply NoDup_updateAnswers.
    + subst s'. exact IH.
    + destruct D as (k & req & _ & D). apply resume_exam_data in D.
      destruct D as (_ & -> & _). exact IH.
Qed.

(** C9: after every call to [handleNextQuestion] the stored answers hold at
    most one entry per question identifier; the only entry for the question
    just answered is the new answer, whatever was stored for it before, and
    the answers to the other questions are kept. *)
Theorem C9_one_answer_per_question s s' :
  reachable s -> handleNextQuestion s = Some s' ->
  NoDup (answerIds (userAnswers s'))
  /\ exists q,
       nth_error (examQuestions s) (currentQuestionIndex s) = Some q
       /\ answersFor (ExamQuestion.id q) (userAnswers s') = [newAnswer s q]
       /\ forall a, In a (userAnswers s) ->
                    UserAnswer.questionId a <> ExamQuestion.id q ->
                    In a (userAnswers s').
Proof.
  intros Hr H. pose proof (reachable_answers_NoDup s Hr) as Hnd.
  apply handleNextQuestion_Some in H.
  destruct H as (q & Hq & H).
  assert (Hu : userAnswers s' = updateAnswers (newAnswer s q) (userAnswers s)).
  { destruct H as [[_ [a ->]] | [_ ->]]; reflexivity. }
  rewrite Hu. split; [now apply NoDup_updateAnswers|].
  exists q. split; [exact Hq|]. split.
  - apply (answersFor_updateAnswers (newAnswer s q)).
  - intros a Ha Hne. now apply In_updateAnswers_old.
Qed.

Lemma reachable_state_after tr s :
  run mounted tr = Some s -> reachable (state_after tr).
Proof.
  intros H. unfold state_after. rewrite H.
  eapply run_reachable; [constructor|exact H].
Qed.

(** ** C6 *)



(** ** C4: a failed grading *)

Lemma C4_failed_grading_resets_exam :
  (exists s s',
      run mounted exam_finished = Some s
      /\ step s (Replied 1 rejected) = Some s'
      /\ examState s = results /\ examState s' = setup
      /\ error s' = gradeError /\ error s' <> genericError
      /\ userAnswers s' <> [] /\ step s' ClickNext = None
      /\ userAnswers (startExam s') = [])
  /\ (exists s,
        run mounted chat_rejected = Some s
        /\ error s = "" /\ isSubmitting s = true).
Proof.
  split.
  - eexists. eexists. split; [vm_compute; reflexivity|].
    split; [vm_compute; reflexivity|].
    repeat (split; [first [reflexivity | discriminate]|]). reflexivity.
  - eexists. split; [vm_compute; reflexivity|]. split; reflexivity.
Qed.

(** ** C5 *)

Lemma C5_no_time_limit :
  ~ (exists limit : N,
        forall ms, (limit <= ms)%N ->
                   step (state_after exam_started) (Elapse ms)
                   <> Some (state_after exam_started)).
Proof.
  intros [limit H]. apply (H limit); [lia|].
  vm_compute. reflexivity.
Qed.

Lemma step_Elapse s ms s' : step s (Elapse ms) = Some s' -> s' = s.
Proof. intros H. step_inv H. now injection H as <-. Qed.

(** C5, amended: the exams are not timed.  The passing of time alone
    never changes the state, and a run ends in the same state when the
    waiting is left out of it: no state of the exam depends on how long the
    user takes. *)
Theorem C5_untimed :
  (forall s ms s', step s (Elapse ms) = Some s' -> s' = s)
  /\ (forall tr s s',
         run s tr = Some s' ->
         run s (filter (fun e => negb (is_elapse e)) tr) = Some s').
Proof.
  split; [exact step_Elapse|].
  induction tr as [|e tr IH]; intros s s' H; simpl in *; [exact H|].
  destruct (step s e) as [s1|] eqn:E; [|discriminate].
  destruct (is_elapse e) eqn:Ee; simpl.
  - destruct e; try discriminate Ee. apply step_Elapse in E. subst s1. auto.
  - rewrite E. auto.
Qed.

Lemma C5_untimed_witness :
  let tr := [ChangeView v_exams; Elapse 60000; ClickStartExam;
             Elapse 3600000] in
  run mounted tr = Some (state_after tr)
  /\ run mounted [ChangeView v_exams; ClickStartExam] = Some (state_after tr).
Proof.
  intros tr.
  assert (H : run mounted tr = Some (state_after tr))
    by (vm_compute; reflexivity).
  split; [exact H|].
  exact (proj2 C5_untimed tr mounted (state_after tr) H).
Defined.

(** ** C7 *)

Lemma Forall_remove_nth {A} (P : A -> Prop) i l :
  Forall P l -> Forall P (remove_nth i l).
Proof.
  revert i. induction l as [|a l IH]; intros [|i] H; simpl;
    try constructor; inversion H; subst; auto.
Qed.

Lemma resume_inflight k r s s' :
  resume k r s = Some s' -> inflight s' = inflight s /\ chat s' = chat s.
Proof.
  intros H.
  destruct k; destruct r as [|[]]; simpl in H; try discriminate;
    injection H as <-; split; reflexivity.
Qed.

Lemma reachable_gemini s :
  reachable s -> Forall gemini (inflight s) /\ chat_gemini s.
Proof.
  induction 1 as [| |s e s' _ [IHf IHc] H].
  - split; [repeat constructor|intros c Hc; discriminate].
  - split; [repeat constructor|intros c Hc; discriminate].
  - step_inv H. unfold chat_gemini in *.
    destruct e;
      try (injection H as <-; unfold_handlers; repeat case_if; simpl;
           (split; [|assumption]);
           first [assumption
                 | apply Forall_app; (split; [assumption|]);
                   repeat constructor; auto]).
    + (* ChangeView *)
      injection H as <-. destruct view; unfold_handlers; simpl;
        (split;
         [first [assumption
                | apply Forall_app; split; [assumption|repeat constructor]]
         |first [assumption | intros c Hc; now injection Hc as <-]]).
    + (* SubmitChatMessage *)
      injection H as <-. unfold sendChatMessage, call.
      repeat case_if; simpl;
        (split; [|intros c0 Hc0; apply IHc; congruence]); try assumption.
      apply Forall_app; split; [assumption|].
      constructor; [|constructor]. unfold gemini; simpl. now apply IHc.
    + (* ClickNext *)
      apply handleNextQuestion_Some in H.
      destruct H as (q & _ & [[_ [a ->]] | [_ ->]]); simpl;
        (split; [|assumption]); [assumption|].
      apply Forall_app; split; [assumption|repeat constructor].
    + (* Replied *)
      destruct (nth_error (inflight s) i) as [[k req]|]; [|discriminate].
      apply resume_inflight in H. destruct H as [Hi Hc]. simpl in Hi, Hc.
      rewrite Hi, Hc. split; [now apply Forall_remove_nth|assumption].
Qed.

(** C7: every request the component has made, whether through
    [generateContent], through the chat or for the popup, names the model
    'gemini-2.5-flash'. *)
Theorem C7_single_model s :
  reachable s ->
  forall k req, In (k, req) (inflight s) -> model req = "gemini-2.5-flash".
Proof.
  intros Hr k req Hin. apply reachable_gemini in Hr. destruct Hr as [Hf _].
  rewrite Forall_forall in Hf. exact (Hf (k, req) Hin).
Qed.

Lemma C7_single_model_witness :
  reachable (state_after chat_sent)
  /\ map (fun kr => api (snd kr)) (inflight (state_after chat_sent))
     = [models_generateContent; models_generateContent; chat_sendMessage]
  /\ forall k req, In (k, req) (inflight (state_after chat_sent)) ->
                   model req = "gemini-2.5-flash".
Proof.
  assert (Hr : reachable (state_after chat_sent)).
  { eapply reachable_state_after. vm_compute. reflexivity. }
  split; [exact Hr|]. split; [vm_compute; reflexivity|].
  exact (C7_single_model (state_after chat_sent) Hr).
Defined.

(** ** C8: calls that overlap *)

Lemma C8_calls_overlap :
  exists s,
    run mounted [MouseUp true "hello" true false 10 20; ChangeView v_story]
    = Some s
    /\ map fst (inflight s)
       = [in_generateWordOfTheDay; in_handleMouseUp 10 20; in_generateStory].
Proof. eexists. split; [vm_compute; reflexivity|reflexivity]. Qed.

Lemma length_remove_nth {A} i (l : list A) :
  List.length (remove_nth i l) <= List.length l.
Proof.
  revert i. induction l as [|a l IH]; intros [|i]; simpl; try lia.
  specialize (IH i). lia.
Qed.

Lemma step_inflight_length s e s' :
  step s e = Some s' ->
  List.length (inflight s') <= List.length (inflight s) + 1.
Proof.
  intros H. step_inv H.
  destruct e;
    try (injection H as <-; unfold_handlers; repeat case_if; simpl;
         rewrite ?length_app; simpl; lia).
  - injection H as <-. destruct view; unfold_handlers; simpl;
      rewrite ?length_app; simpl; lia.
  - apply handleNextQuestion_Some in H.
    destruct H as (q & _ & [[_ [a ->]] | [_ ->]]); simpl;
      rewrite ?length_app; simpl; lia.
  - destruct (nth_error (inflight s) i) as [[k req]|]; [|discriminate].
    apply resume_inflight in H. destruct H as [-> _]. simpl.
    pose proof (length_remove_nth i (inflight s)). lia.
Qed.

Lemma run_story_requests n s :
  is_exams (activeView s) = false ->
  exists s',
    run s (repeat (ChangeView v_story) n) = Some s'
    /\ List.length (inflight s') = List.length (inflight s) + n.
Proof.
  revert s. induction n as [|n IH]; intros s Hv; simpl.
  - exists s. split; [reflexivity|lia].
  - assert (E : step s (ChangeView v_story) = Some (changeView v_story s)).
    { unfold step, crashed. rewrite Hv. reflexivity. }
    rewrite E. destruct (IH (changeView v_story s) eq_refl) as (s' & Hr & Hl).
    exists s'. split; [exact Hr|]. rewrite Hl. simpl.
    rewrite length_app. simpl. lia.
Qed.

(** ** A whole exam, question by question *)

Lemma renderExams_in_progress s q :
  isLoading s = false -> examState s = in_progress ->
  nth_error (examQuestions s) (currentQuestionIndex s) = Some q ->
  renderExams s
  = Some (view_question (currentQuestionIndex s + 1)
            (List.length (examQuestions s)) q (currentAnswer s)
            (negb (truthy (currentAnswer s)))
            (if (Z.of_nat (currentQuestionIndex s)
                 <? Z.of_nat (List.length (examQuestions s)) - 1)%Z
             then "Next Question" else "Finish & Grade Exam")).
Proof.
  intros Hl Hs Hq. unfold renderExams. rewrite Hl, Hs. simpl.
  destruct (examQuestions s) as [|q0 qs] eqn:E.
  - destruct (currentQuestionIndex s); discriminate.
  - rewrite Hq. reflexivity.
Qed.

Lemma truthy_true a : a <> "" -> truthy a = true.
Proof.
  intros H. unfold truthy. apply negb_true_iff. now apply String.eqb_neq.
Qed.

Lemma existsb_eqb_In a os : In a os -> existsb (String.eqb a) os = true.
Proof.
  intros H. apply existsb_exists. exists a. split; [exact H|].
  apply String.eqb_refl.
Qed.

(** Giving an answer to the question shown sets [currentAnswer]. *)
Lemma step_answerEvent s q a :
  activeView s = v_exams -> isLoading s = false -> examState s = in_progress ->
  nth_error (examQuestions s) (currentQuestionIndex s) = Some q ->
  answerable q a ->
  step s (answerEvent q a) = Some (s |> setCurrentAnswer a).
Proof.
  intros Hv Hl Hs Hq [Ha Ho].
  pose proof (renderExams_in_progress s q Hl Hs Hq) as R.
  unfold step, crashed. rewrite R. simpl. rewrite andb_false_r. simpl.
  unfold answerEvent.
  destruct (is_mcq (ExamQuestion.type q)) eqn:Em.
  - destruct (Ho eq_refl) as (os & Hos & Hin).
    unfold offered, examControl. rewrite R, Hv, Em, Hos. simpl.
    now rewrite (existsb_eqb_In a os Hin).
  - unfold offered, examControl. rewrite R, Hv, Em. reflexivity.
Qed.

(** With a non-empty answer the button calls [handleNextQuestion]. *)
Lemma step_ClickNext s q :
  activeView s = v_exams -> isLoading s = false -> examState s = in_progress ->
  nth_error (examQuestions s) (currentQuestionIndex s) = Some q ->
  currentAnswer s <> "" ->
  step s ClickNext = handleNextQuestion s.
Proof.
  intros Hv Hl Hs Hq Ha.
  pose proof (renderExams_in_progress s q Hl Hs Hq) as R.
  unfold step, crashed. rewrite R. simpl. rewrite andb_false_r. simpl.
  unfold offered, examControl. rewrite R, Hv. simpl.
  now rewrite (truthy_true _ Ha).
Qed.

Lemma updateAnswers_fresh a answers :
  ~ In (UserAnswer.questionId a) (answerIds answers) ->
  updateAnswers a answers = (answers ++ [a])%list.
Proof.
  intros H. unfold updateAnswers. f_equal.
  induction answers as [|b l IH]; simpl; [reflexivity|].
  destruct (UserAnswer.questionId b =? UserAnswer.questionId a)%Z eqn:E.
  - apply Z.eqb_eq in E. exfalso. apply H. left. exact E.
  - simpl. f_equal. apply IH. intros Hin. apply H. now right.
Qed.

Lemma answerIds_recorded qs answers :
  List.length answers = List.length qs ->
  answerIds (recorded qs answers) = map ExamQuestion.id qs.
Proof.
  revert answers. induction qs as [|q qs IH]; intros [|a answers] H;
    simpl in *; try discriminate; [reflexivity|].
  f_equal. apply IH. lia.
Qed.

(** The run from the question at position [length pre] on. *)
Lemma run_examEvents rest :
  forall pre answers s,
    activeView s = v_exams -> isLoading s = false ->
    examState s = in_progress ->
    examQuestions s = (pre ++ rest)%list -> rest <> [] ->
    currentQuestionIndex s = List.length pre ->
    NoDup (map ExamQuestion.id (pre ++ rest)) ->
    (forall x, In x (answerIds (userAnswers s)) ->
               In x (map ExamQuestion.id pre)) ->
    Forall2 answerable rest answers ->
    exists s',
      run s (examEvents rest answers) = Some s'
      /\ userAnswers s' = (userAnswers s ++ recorded rest answers)%list
      /\ inflight s' = (inflight s ++ [gradingRequest s (userAnswers s')])%list
      /\ examState s' = results.
Proof.
  induction rest as [|q rest IH]; intros pre answers s Hv Hl Hs Hqs Hne Hi Hnd
    Hua Hans; [contradiction|].
  inversion Hans as [|q0 a rest0 answers' Hqa Hrest]; subst. clear Hne.
  assert (Hq : nth_error (examQuestions s) (currentQuestionIndex s) = Some q).
  { rewrite Hqs, Hi, nth_error_app2 by lia. now rewrite Nat.sub_diag. }
  simpl examEvents. cbn [run].
  rewrite (step_answerEvent s q a Hv Hl Hs Hq Hqa).
  set (s1 := s |> setCurrentAnswer a).
  assert (Hstep : step s1 ClickNext = handleNextQuestion s1).
  { apply (step_ClickNext s1 q); try assumption. exact (proj1 Hqa). }
  rewrite Hstep.
  assert (Hfresh : ~ In (ExamQuestion.id q) (answerIds (userAnswers s))).
  { intros Hin. apply Hua in Hin. rewrite map_app in Hnd. simpl in Hnd.
    apply NoDup_remove_2 in Hnd. apply Hnd. apply in_or_app. now left. }
  assert (Hupd : updateAnswers (newAnswer s1 q) (userAnswers s)
                 = (userAnswers s ++ [UserAnswer.mk (ExamQuestion.id q) a])%list).
  { apply updateAnswers_fresh. exact Hfresh. }
  destruct (handleNextQuestion s1) as [s2|] eqn:E.
  2:{ unfold handleNextQuestion in E. change (examQuestions s1) with (examQuestions s) in E.
      change (currentQuestionIndex s1) with (currentQuestionIndex s) in E.
      rewrite Hq in E.
      destruct (Z.of_nat (currentQuestionIndex s)
                <? Z.of_nat (List.length (examQuestions s)) - 1)%Z;
        [destruct (nth_error (examQuestions s) (currentQuestionIndex s + 1))|];
        discriminate. }
  apply handleNextQuestion_Some in E.
  destruct E as (q' & Hq' & E).
  change (nth_error (examQuestions s) (currentQuestionIndex s) = Some q') in Hq'.
  rewrite Hq in Hq'. injection Hq' as <-.
  cbv zeta in E. change (userAnswers s1) with (userAnswers s) in E.
  rewrite Hupd in E.
  assert (Hlen : List.length (examQuestions s)
                 = List.length pre + S (List.length rest)).
  { rewrite Hqs, length_app. reflexivity. }
  destruct E as [[Hn [a0 ->]] | [Hlast ->]].
  - (* another question follows *)
    unfold lastQuestion in Hn. apply not_false_is_true in Hn.
    change (examQuestions s1) with (examQuestions s) in Hn.
    change (currentQuestionIndex s1) with (currentQuestionIndex s) in Hn.
    apply Z.ltb_lt in Hn.
    assert (Hrest' : rest <> []).
    { intros ->. simpl in Hlen. lia. }
    match goal with
    | |- exists s', run ?x _ = _ /\ _ => set (s2 := x)
    end.
    destruct (IH (pre ++ [q])%list answers' s2) as (s' & Hrun & Hu & Hinf & Hres);
      try assumption; try reflexivity.
    + simpl. rewrite Hqs, <- app_assoc. reflexivity.
    + simpl. rewrite Hi, length_app. reflexivity.
    + now rewrite <- app_assoc.
    + simpl. intros x Hx. unfold answerIds in Hx. rewrite map_app in Hx.
      rewrite map_app. apply in_app_or in Hx. apply in_or_app.
      destruct Hx as [Hx|Hx]; [left; now apply Hua|right; exact Hx].
    + exists s'. split; [exact Hrun|].
      simpl in Hu, Hinf. split; [|split; [|exact Hres]].
      * rewrite Hu, <- app_assoc. reflexivity.
      * rewrite Hinf. reflexivity.
  - (* the last question *)
    unfold lastQuestion in Hlast.
    change (examQuestions s1) with (examQuestions s) in Hlast.
    change (currentQuestionIndex s1) with (currentQuestionIndex s) in Hlast.
    apply Z.ltb_ge in Hlast.
    assert (rest = []) as ->.
    { destruct rest; [reflexivity|]. simpl in Hlen. lia. }
    inversion Hrest; subst. simpl.
    eexists. split; [reflexivity|]. simpl. repeat split; reflexivity.
Qed.

(** ** The exams view at its edges *)

(** X2: whenever the page offers the button, [handleNextQuestion] finds its
    question: the [TypeError] of its first line cannot be reached by a
    click. *)
Theorem next_button_never_throws s :
  crashed s = false -> offered s ClickNext = true ->
  exists s', step s ClickNext = Some s'.
Proof.
  intros Hc Ho. unfold step. rewrite Hc, Ho. simpl.
  apply offered_ClickNext in Ho. destruct Ho as (_ & _ & _ & _ & q & Hq).
  unfold handleNextQuestion. rewrite Hq.
  destruct (Z.of_nat (currentQuestionIndex s)
            <? Z.of_nat (List.length (examQuestions s)) - 1)%Z;
    [destruct (nth_error (examQuestions s) (currentQuestionIndex s + 1))|];
    eauto.
Qed.

Lemma next_button_never_throws_witness :
  let s := state_after (exam_started ++ [TypeAnswer "I work."]) in
  crashed s = false /\ offered s ClickNext = true
  /\ exists s', step s ClickNext = Some s'.
Proof.
  intros s.
  assert (Hc : crashed s = false) by (vm_compute; reflexivity).
  assert (Ho : offered s ClickNext = true) by (vm_compute; reflexivity).
  split; [exact Hc|]. split; [exact Ho|].
  exact (next_button_never_throws s Hc Ho).
Defined.

Lemma renderExams_None s :
  renderExams s = None <->
  isLoading s = false /\ examState s = in_progress
  /\ examQuestions s <> []
  /\ List.length (examQuestions s) <= currentQuestionIndex s.
Proof.
  split.
  - unfold renderExams.
    destruct (isLoading s) eqn:El, (examState s) eqn:Es; simpl; intros H;
      try discriminate H;
      try (destruct (examResults s); discriminate H).
    destruct (examQuestions s) as [|q0 qs] eqn:E; [discriminate H|].
    destruct (nth_error (q0 :: qs) (currentQuestionIndex s)) eqn:En;
      [discriminate H|].
    apply nth_error_None in En. repeat split; auto. discriminate.
  - intros (Hl & Hs & Hne & Hlen). unfold renderExams.
    rewrite Hl, Hs. simpl.
    apply nth_error_None in Hlen. rewrite Hlen.
    destruct (examQuestions s); [contradiction|reflexivity].
Qed.

(** X4: an exam whose question list came back empty is a dead end: the exams
    view shows its loading text and offers none of its controls. *)
Theorem empty_exam_offers_nothing s e :
  examState s = in_progress -> examQuestions s = [] ->
  is_examControl e = true ->
  step s e = None
  /\ (activeView s = v_exams ->
      renderExams s
      = Some (if isLoading s then view_skeleton else view_loadingQuestions)).
Proof.
  intros Hs Hq He.
  assert (R : renderExams s
              = Some (if isLoading s then view_skeleton
                      else view_loadingQuestions)).
  { unfold renderExams. rewrite Hs, Hq. destruct (isLoading s); reflexivity. }
  split; [|intros _; exact R].
  unfold step. replace (offered s e) with false.
  - now rewrite orb_true_r.
  - unfold offered, examControl. rewrite R.
    destruct e; try discriminate He; destruct (isLoading s);
      now rewrite andb_false_r.
Qed.

Lemma empty_exam_offers_nothing_witness :
  let s := state_after [ChangeView v_exams; ClickStartExam;
                        Replied 1 (resolved (JsonQuestions []))] in
  examState s = in_progress /\ examQuestions s = []
  /\ is_examControl ClickNext = true
  /\ step s ClickNext = None.
Proof.
  intros s.
  assert (Hs : examState s = in_progress) by reflexivity.
  assert (Hq : examQuestions s = []) by reflexivity.
  split; [exact Hs|]. split; [exact Hq|]. split; [reflexivity|].
  exact (proj1 (empty_exam_offers_nothing s ClickNext Hs Hq eq_refl)).
Defined.

Lemma Forall_updateAnswers (P : UserAnswer.t -> Prop) a answers :
  P a -> Forall P answers -> Forall P (updateAnswers a answers).
Proof.
  intros Ha Hl. unfold updateAnswers. apply Forall_app. split.
  - apply Forall_forall. intros x Hx. apply filter_In in Hx.
    rewrite Forall_forall in Hl. now apply Hl.
  - now constructor.
Qed.

(** X5: the button is disabled on an empty answer, so no stored answer is
    ever empty. *)
Theorem stored_answers_not_empty s :
  reachable s -> Forall (fun a => UserAnswer.answer a <> "") (userAnswers s).
Proof.
  induction 1 as [| |s e s' _ IH H]; [constructor|constructor|].
  pose proof (step_exam_data _ _ _ H) as D.
  destruct e; try (destruct D as (_ & _ & -> & _); exact IH).
  - subst s'. constructor.
  - step_inv H. apply offered_ClickNext in Hguard.
    destruct Hguard as (_ & _ & _ & Ht & _).
    apply handleNextQuestion_Some in D.
    assert (Ha : currentAnswer s <> "").
    { unfold truthy in Ht. apply negb_true_iff in Ht.
      now apply String.eqb_neq. }
    destruct D as (q & _ & [[_ [a ->]] | [_ ->]]); simpl;
      now apply Forall_updateAnswers.
  - subst s'. exact IH.
  - destruct D as (k & req & _ & D). apply resume_exam_data in D.
    destruct D as (_ & -> & _). exact IH.
Qed.

Lemma stored_answers_not_empty_witness :
  reachable (state_after exam_finished)
  /\ Forall (fun a => UserAnswer.answer a <> "")
       (userAnswers (state_after exam_finished)).
Proof.
  assert (Hr : reachable (state_after exam_finished)).
  { eapply reachable_state_after. vm_compute. reflexivity. }
  split; [exact Hr|]. exact (stored_answers_not_empty _ Hr).
Defined.

(** ** Changing the view *)

Lemma activeView_changeView v s : activeView (changeView v s) = v.
Proof. destruct v; reflexivity. Qed.

(** X6: [changeView] clears the error and shows the view; opening the story,
    speaking, vocabulary, translation, phrasal-verb or phrase view starts
    exactly one call and turns the loader on, whether or not a call for
    that view is outstanding already; opening any other view starts
    none. *)
Theorem changeView_fetches v s :
  error (changeView v s) = "" /\ activeView (changeView v s) = v
  /\ List.length (inflight (changeView v s))
     = List.length (inflight s) + (if fetches v then 1 else 0)
  /\ (fetches v = true -> isLoading (changeView v s) = true)
  /\ examState (changeView v s)
     = (if is_exams v then examState s else setup).
Proof.
  destruct v; unfold changeView; unfold_handlers; simpl;
    rewrite ?length_app; simpl; repeat split; auto; try lia;
    discriminate.
Qed.

(** X7: leaving the exams view gives the exam up: whatever its state was, on
    coming back the page shows the setup form (the skeleton while a loader
    is on); the questions and the answers stay stored until the next
    [startExam]. *)
Theorem leaving_abandons_exam s v :
  crashed s = false -> is_exams v = false ->
  exists s',
    run s [ChangeView v; ChangeView v_exams] = Some s'
    /\ examState s' = setup
    /\ renderExams s'
       = Some (if isLoading s' then view_skeleton
               else view_setup (examSettings s) false)
    /\ examQuestions s' = examQuestions s /\ userAnswers s' = userAnswers s.
Proof.
  intros Hc Hv. cbn [run]. unfold step at 1. rewrite Hc. simpl.
  assert (Hc1 : crashed (changeView v s) = false).
  { unfold crashed. rewrite activeView_changeView, Hv. reflexivity. }
  unfold step. rewrite Hc1. simpl.
  eexists. split; [reflexivity|].
  destruct v; try discriminate Hv; unfold changeView; unfold_handlers; simpl;
    unfold renderExams; simpl; repeat split; try reflexivity;
    destruct (isLoading s); reflexivity.
Qed.

Lemma leaving_abandons_exam_witness :
  let s := state_after (exam_started ++ [TypeAnswer "I work."; ClickNext]) in
  crashed s = false /\ is_exams v_dictionary = false
  /\ userAnswers s = [UserAnswer.mk 1 "I work."]
  /\ exists s',
       run s [ChangeView v_dictionary; ChangeView v_exams] = Some s'
       /\ examState s' = setup
       /\ renderExams s'
          = Some (if isLoading s' then view_skeleton
                  else view_setup (examSettings s) false)
       /\ examQuestions s' = examQuestions s
       /\ userAnswers s' = userAnswers s.
Proof.
  intros s.
  assert (Hc : crashed s = false) by (vm_compute; reflexivity).
  split; [exact Hc|]. split; [reflexivity|]. split; [reflexivity|].
  exact (leaving_abandons_exam s v_dictionary Hc eq_refl).
Defined.

(** ** Replies that cannot be used *)

(** X8: a reply that is not JSON is swallowed by the handlers that parse it
    unguarded: the call is over, no error is shown and the loader flags
    stay as they were, so a loader that was on stays on.  The two exam
    handlers catch it: they show their message and clear [isLoading], and
    [gradeExam] sends the exam back to setup. *)
Theorem unparsable_reply s i k req s' :
  step s (Replied i (resolved NotJson)) = Some s' ->
  nth_error (inflight s) i = Some (k, req) ->
  (parses_unguarded k = true ->
     s' = s |> setInflight (remove_nth i (inflight s)))
  /\ (k = in_startExam ->
      error s' = createError /\ isLoading s' = false
      /\ examState s' = examState s)
  /\ (k = in_gradeExam ->
      error s' = gradeError /\ isLoading s' = false /\ examState s' = setup).
Proof.
  intros H Hn. step_inv H. rewrite Hn in H.
  destruct k; simpl in H; try discriminate H; injection H as <-;
    repeat split; try discriminate; auto.
Qed.

Lemma unparsable_reply_witness :
  let s := state_after [ChangeView v_story] in
  let s' := state_after story_unparsable in
  step s (Replied 1 (resolved NotJson)) = Some s'
  /\ nth_error (inflight s) 1
     = Some (in_generateStory,
             generateContent (prompt_story "Beginner") (Some schema_story) None)
  /\ s' = s |> setInflight (remove_nth 1 (inflight s))
  /\ isLoading s' = true /\ error s' = "".
Proof.
  intros s s'.
  assert (Hstep : step s (Replied 1 (resolved NotJson)) = Some s')
    by (vm_compute; reflexivity).
  assert (Hn : nth_error (inflight s) 1
               = Some (in_generateStory,
                       generateContent (prompt_story "Beginner")
                         (Some schema_story) None))
    by (vm_compute; reflexivity).
  split; [exact Hstep|]. split; [exact Hn|].
  split; [|split; reflexivity].
  exact (proj1 (unparsable_reply s 1 _ _ s' Hstep Hn) eq_refl).
Defined.

(** ** The conversation *)

Lemma nth_error_last {A} (l : list A) x :
  nth_error (l ++ [x]) (List.length l) = Some x.
Proof. rewrite nth_error_app2 by lia. now rewrite Nat.sub_diag. Qed.

Lemma remove_nth_last {A} (l : list A) x :
  remove_nth (List.length l) (l ++ [x]) = l.
Proof. induction l as [|a l IH]; simpl; [reflexivity|]. now rewrite IH. Qed.

(** X9: a chat message whose call is rejected: [sendChatMessage] has no
    [catch], so the message stays in the history without an answer, no
    error is shown, [isSubmitting] stays on and the Send button stays
    disabled. *)
Theorem rejected_chat_message s c s1 :
  chat s = Some c ->
  step s SubmitChatMessage = Some s1 ->
  exists s2,
    step s1 (Replied (List.length (inflight s)) rejected) = Some s2
    /\ chatHistory s2
       = (chatHistory s ++ [ChatTurn.mk role_user (chatMessage s)])%list
    /\ chatMessage s2 = "" /\ error s2 = error s /\ isSubmitting s2 = true
    /\ inflight s2 = inflight s
    /\ step s2 SubmitChatMessage = None.
Proof.
  intros Hc H. step_inv H. injection H as <-.
  unfold offered in Hguard.
  apply andb_prop in Hguard. destruct Hguard as [Hguard Hsub].
  apply andb_prop in Hguard. destruct Hguard as [Hview Hload].
  apply negb_true_iff, orb_false_elim in Hsub. destruct Hsub as [_ Hmsg].
  apply negb_false_iff in Hmsg.
  unfold sendChatMessage. rewrite Hmsg, Hc. simpl.
  assert (Hcr : crashed
                  (call in_sendChatMessage
                     (mkRequest chat_sendMessage (Chat.model c)
                        (prompt_chat (chatMessage s)) None
                        (Some (Chat.systemInstruction c)))
                     (setIsSubmitting true
                        (setChatHistory
                           (chatHistory s
                            ++ [ChatTurn.mk role_user (chatMessage s)])
                           (setChatMessage "" s)))) = false).
  { exact Hcrash. }
  unfold step at 1. rewrite Hcr. simpl.
  rewrite nth_error_last. simpl.
  eexists. split; [reflexivity|]. simpl.
  rewrite remove_nth_last.
  repeat split.
  unfold step. replace (offered _ SubmitChatMessage) with false.
  - now rewrite orb_true_r.
  - unfold offered. simpl. now rewrite !andb_false_r.
Qed.

Lemma rejected_chat_message_witness :
  let s := state_after [ChangeView v_conversation; TypeChatMessage "Hello"] in
  let s1 := state_after [ChangeView v_conversation; TypeChatMessage "Hello";
                         SubmitChatMessage] in
  chat s
  = Some (Chat.mk "gemini-2.5-flash"
            (personaInstructions friendly
             ++ " You are having a conversation with a Beginner level English learner."))
  /\ step s SubmitChatMessage = Some s1
  /\ exists s2,
       step s1 (Replied (List.length (inflight s)) rejected) = Some s2
       /\ chatHistory s2
          = (chatHistory s ++ [ChatTurn.mk role_user (chatMessage s)])%list
       /\ chatMessage s2 = "" /\ error s2 = error s /\ isSubmitting s2 = true
       /\ inflight s2 = inflight s
       /\ step s2 SubmitChatMessage = None.
Proof.
  intros s s1.
  assert (Hc : chat s
               = Some (Chat.mk "gemini-2.5-flash"
                         (personaInstructions friendly
                          ++ " You are having a conversation with a Beginner level English learner.")))
    by (vm_compute; reflexivity).
  assert (Hstep : step s SubmitChatMessage = Some s1)
    by (vm_compute; reflexivity).
  split; [exact Hc|]. split; [exact Hstep|].
  exact (rejected_chat_message s _ s1 Hc Hstep).
Defined.

(** Once a chat exists it stays, its history opening with the greeting. *)
Lemma reachable_chat s :
  reachable s ->
  (chat s <> None -> opens_with_greeting s)
  /\ (activeView s = v_conversation -> chat s <> None).
Proof.
  unfold opens_with_greeting.
  induction 1 as [| |s e s' _ [IHg IHv] H].
  - split; [intros Hc; now elim Hc|discriminate].
  - split; [intros Hc; now elim Hc|discriminate].
  - step_inv H.
    destruct e;
      try (injection H as <-; unfold_handlers; repeat case_if; simpl;
           split; assumption).
    + (* ChangeView *)
      injection H as <-. destruct view; unfold_handlers; simpl;
        first [split; [assumption|discriminate]
              | split; [intros _; do 2 eexists; split; reflexivity
                       |discriminate]].
    + (* SubmitChatMessage *)
      injection H as <-. unfold sendChatMessage, call.
      destruct (negb (truthy (chatMessage s))); [split; assumption|].
      destruct (chat s) as [c|] eqn:Ec;
        [|rewrite Ec; split; assumption]. simpl.
      split; [|intros _; rewrite Ec; discriminate].
      intros _. destruct IHg as (c0 & rest & _ & Hh); [discriminate|].
      rewrite Ec, Hh. do 2 eexists. split; reflexivity.
    + (* ClickNext *)
      apply handleNextQuestion_Some in H.
      destruct H as (q & _ & [[_ [a ->]] | [_ ->]]); simpl; split; assumption.
    + (* Replied *)
      destruct (nth_error (inflight s) i) as [[k req]|]; [|discriminate].
      destruct k; destruct r as [|[]]; simpl in H; try discriminate;
        injection H as <-; simpl; try (split; assumption).
      split; [|assumption]. intros Hc.
      destruct (IHg Hc) as (c0 & rest & Ec & Hh).
      rewrite Ec, Hh. do 2 eexists. split; reflexivity.
Qed.

(** X10: whenever the conversation view is shown a chat exists, and the
    history of a chat always opens with the tutor's greeting: neither a
    message nor a reply that arrives late, after the chat was started
    anew, displaces it. *)
Theorem conversation_opens_with_greeting s :
  reachable s ->
  (activeView s = v_conversation \/ chat s <> None) ->
  exists c rest, chat s = Some c /\ chatHistory s = greeting :: rest.
Proof.
  intros Hr H. destruct (reachable_chat s Hr) as [Hg Hv].
  apply Hg. destruct H as [H|H]; auto.
Qed.

Lemma conversation_opens_with_greeting_witness :
  reachable (state_after chat_sent)
  /\ (activeView (state_after chat_sent) = v_conversation
      \/ chat (state_after chat_sent) <> None)
  /\ exists c rest,
       chat (state_after chat_sent) = Some c
       /\ chatHistory (state_after chat_sent) = greeting :: rest.
Proof.
  assert (Hr : reachable (state_after chat_sent)).
  { eapply reachable_state_after. vm_compute. reflexivity. }
  assert (Hv : activeView (state_after chat_sent) = v_conversation
               \/ chat (state_after chat_sent) <> None)
    by (left; reflexivity).
  split; [exact Hr|]. split; [exact Hv|].
  exact (conversation_opens_with_greeting _ Hr Hv).
Defined.

(** ** The translation popup *)


(** X11: [handleMouseUp] sends a request exactly for a selection whose
    [length] (in UTF-16 code units) is between 1 and 99, that starts in
    the main content while the focus is not in an input or textarea; it
    then shows the loading popup 5 pixels below the selection.  Any other
    mouse-up sends nothing and at most closes the popup. *)
Theorem handleMouseUp_translates_iff outside sel inMain inField l b s :
  let s' := handleMouseUp outside sel inMain inField l b s in
  (translatable sel inMain inField = true ->
     inflight s' =
       (inflight s
        ++ [(in_handleMouseUp l b,
             mkRequest models_generateContent "gemini-2.5-flash"
               (prompt_translateSelection sel) None None)])%list
     /\ popup s' = Popup.mk "" (l + fst (scroll s)) (b + snd (scroll s) + 5)
                     true (Some sel)
     /\ TranslationPopup s'
        = Some (popup_loader (b + snd (scroll s) + 5) (l + fst (scroll s))))
  /\ (translatable sel inMain inField = false ->
      inflight s' = inflight s
      /\ (popup s' = popup s \/ popup s' = emptyPopup)).
Proof.
  intros s'. subst s'. unfold translatable, handleMouseUp, call.
  set (s1 := if is_some (Popup.original (popup s)) && outside
             then setPopup emptyPopup s else s).
  assert (Hi : inflight s1 = inflight s)
    by (subst s1; destruct (_ && outside); reflexivity).
  assert (Hp : popup s1 = popup s \/ popup s1 = emptyPopup)
    by (subst s1; destruct (_ && outside); auto).
  cbv zeta.
  destruct ((0 <? jsLength sel)%nat && (jsLength sel <? 100)%nat
            && inMain) eqn:E; destruct inField; simpl;
    (split; [intros Ht|intros Hf]); try discriminate; auto.
  rewrite Hi. split; [reflexivity|]. split; [reflexivity|].
  unfold TranslationPopup. simpl. unfold truthy.
  destruct sel; [discriminate E|reflexivity].
Qed.

Lemma handleMouseUp_translates_iff_witness :
  translatable "hello" true false = true
  /\ TranslationPopup (handleMouseUp true "hello" true false 10 20 mounted)
     = Some (popup_loader 25 10)
  /\ translatable accented_selection true false = true
  /\ List.length
       (inflight (handleMouseUp true accented_selection true false 10 20
                    mounted)) = 2
  /\ translatable "" true false = false
  /\ inflight (handleMouseUp true "" true false 10 20 mounted)
     = inflight mounted.
Proof.
  pose proof (handleMouseUp_translates_iff true "hello" true false 10 20 mounted)
    as [Hyes _].
  pose proof (handleMouseUp_translates_iff true accented_selection true false
                10 20 mounted) as [Hacc _].
  pose proof (handleMouseUp_translates_iff true "" true false 10 20 mounted)
    as [_ Hno].
  assert (Ht : translatable accented_selection true false = true)
    by (vm_compute; reflexivity).
  split; [reflexivity|].
  split; [exact (proj2 (proj2 (Hyes eq_refl)))|].
  split; [exact Ht|].
  split; [rewrite (proj1 (Hacc Ht)), length_app; reflexivity|].
  split; [reflexivity|]. exact (proj1 (Hno eq_refl)).
Defined.

(** X12: the reply to a translation request.  A translation is put into the
    popup as it is at that moment, so it is shown only if the popup is
    still open, under the selection found there.  A rejected call stores
    'Translation failed.' in a popup without [original], which
    [TranslationPopup] does not render: the failure is never shown. *)
Theorem popup_after_reply s i l b req :
  nth_error (inflight s) i = Some (in_handleMouseUp l b, req) ->
  crashed s = false ->
  (exists s',
      step s (Replied i rejected) = Some s'
      /\ Popup.text (popup s') = "Translation failed."
      /\ TranslationPopup s' = None)
  /\ (forall t, exists s',
         step s (Replied i (resolved (Text t))) = Some s'
         /\ TranslationPopup s'
            = match Popup.original (popup s) with
              | Some original =>
                  if truthy original
                  then Some (popup_translation (Popup.y (popup s))
                               (Popup.x (popup s)) original t)
                  else None
              | None => None
              end).
Proof.
  intros Hn Hc. split.
  - unfold step. rewrite Hc, Hn. simpl. eexists. split; [reflexivity|].
    split; reflexivity.
  - intros t. unfold step. rewrite Hc, Hn. simpl.
    eexists. split; [reflexivity|].
    unfold TranslationPopup. simpl.
    destruct (Popup.original (popup s)) as [o|]; [|reflexivity].
    destruct (truthy o); reflexivity.
Qed.

Lemma popup_after_reply_witness :
  let s := state_after [MouseUp true "hello" true false 10 20] in
  nth_error (inflight s) 1
  = Some (in_handleMouseUp 10 20,
          mkRequest models_generateContent "gemini-2.5-flash"
            (prompt_translateSelection "hello") None None)
  /\ crashed s = false
  /\ exists s',
       step s (Replied 1 rejected) = Some s'
       /\ Popup.text (popup s') = "Translation failed."
       /\ TranslationPopup s' = None.
Proof.
  intros s.
  assert (Hn : nth_error (inflight s) 1
               = Some (in_handleMouseUp 10 20,
                       mkRequest models_generateContent "gemini-2.5-flash"
                         (prompt_translateSelection "hello") None None))
    by (vm_compute; reflexivity).
  assert (Hc : crashed s = false) by (vm_compute; reflexivity).
  split; [exact Hn|]. split; [exact Hc|].
  exact (proj1 (popup_after_reply s 1 10 20 _ Hn Hc)).
Defined.

(** ** The word of the day *)

Lemma filter_remove_nth_length {A} (f : A -> bool) i l :
  List.length (filter f (remove_nth i l)) <= List.length (filter f l).
Proof.
  revert i. induction l as [|a l IH]; intros [|i]; simpl; try lia.
  - destruct (f a); simpl; lia.
  - specialize (IH i). destruct (f a); simpl; lia.
Qed.

Lemma filter_remove_nth_hit {A} (f : A -> bool) i l x :
  nth_error l i = Some x -> f x = true ->
  S (List.length (filter f (remove_nth i l))) = List.length (filter f l).
Proof.
  revert i. induction l as [|a l IH]; intros [|i] Hn Hx; simpl in *;
    try discriminate.
  - injection Hn as ->. now rewrite Hx.
  - specialize (IH i Hn Hx). destruct (f a); simpl; lia.
Qed.

(** No step starts a word-of-the-day call. *)
Lemma step_wordCalls s e s' :
  step s e = Some s' -> wordCalls s' <= wordCalls s.
Proof.
  unfold wordCalls. intros H. step_inv H.
  destruct e;
    try (injection H as <-; unfold_handlers; repeat case_if; simpl;
         rewrite ?filter_app; simpl; rewrite ?app_nil_r; lia).
  - injection H as <-. destruct view; unfold_handlers; simpl;
      rewrite ?filter_app; simpl; rewrite ?app_nil_r; lia.
  - apply handleNextQuestion_Some in H.
    destruct H as (q & _ & [[_ [a ->]] | [_ ->]]); simpl;
      rewrite ?filter_app; simpl; rewrite ?app_nil_r; lia.
  - destruct (nth_error (inflight s) i) as [[k req]|]; [|discriminate].
    apply resume_inflight in H. destruct H as [-> _]. simpl.
    apply filter_remove_nth_length.
Qed.

Lemma reachable_wordCalls s :
  reachable s ->
  wordCalls s <= 1 /\ (wordOfTheDay s <> None -> wordCalls s = 0).
Proof.
  induction 1 as [| |s e s' _ [IHc IHw] H].
  - split; [vm_compute; lia|intros Hw; now elim Hw].
  - split; [vm_compute; lia|intros Hw; now elim Hw].
  - pose proof (step_wordCalls _ _ _ H) as Hle.
    split; [lia|]. intros Hw.
    destruct (wordOfTheDay s) as [w|] eqn:Ew.
    { assert (wordCalls s = 0) by (apply IHw; discriminate). lia. }
    step_inv H.
    destruct e;
      try (injection H as <-; exfalso; revert Hw; unfold_handlers;
           repeat case_if; simpl; rewrite Ew; intros Hw; now apply Hw).
    + injection H as <-. exfalso. revert Hw.
      destruct view; unfold_handlers; simpl; rewrite Ew; intros Hw;
        now apply Hw.
    + apply handleNextQuestion_Some in H. exfalso.
      destruct H as (q & _ & [[_ [a ->]] | [_ ->]]); simpl in Hw;
        rewrite Ew in Hw; now apply Hw.
    + destruct (nth_error (inflight s) i) as [[k req]|] eqn:En;
        [|discriminate].
      destruct k; destruct r as [|[]]; simpl in H; try discriminate;
        injection H as <-; simpl in Hw;
        try (rewrite Ew in Hw; exfalso; now apply Hw).
      unfold wordCalls in *. simpl.
      pose proof (filter_remove_nth_hit is_wordCall i (inflight s) _ En eq_refl).
      lia.
Qed.

(** ** Submitting *)

(** X14: every submit the page offers starts exactly one call and turns
    [isSubmitting] on, and with [isSubmitting] on no view offers a submit:
    a second one has to wait for a reply. *)
Theorem submit_disables_submits s e s' :
  reachable s -> is_submit e = true -> step s e = Some s' ->
  isSubmitting s' = true
  /\ List.length (inflight s') = List.length (inflight s) + 1
  /\ forall e', is_submit e' = true -> step s' e' = None.
Proof.
  intros Hr He H.
  assert (Hsub : isSubmitting s' = true
                 /\ List.length (inflight s')
                    = List.length (inflight s) + 1).
  { step_inv H. unfold offered in Hguard.
    destruct e; try discriminate He; injection H as <-;
      repeat (apply andb_prop in Hguard; destruct Hguard as [Hguard ?]);
      repeat match goal with
        | Hx : negb (_ || _) = true |- _ =>
            apply negb_true_iff, orb_false_elim in Hx; destruct Hx as [? Hx];
            apply negb_false_iff in Hx
        end.
    - unfold checkStoryAnswer, call.
      match goal with Hx : truthy _ = true |- _ => rewrite Hx end.
      simpl. rewrite length_app. auto.
    - unfold analyzeSpeech, call.
      match goal with Hx : truthy _ = true |- _ => rewrite Hx end.
      simpl. rewrite length_app. auto.
    - unfold sendChatMessage, call.
      match goal with Hx : truthy _ = true |- _ => rewrite Hx end.
      pose proof (proj2 (reachable_chat s Hr) (view_eqb_eq _ _ Hguard))
        as Hchat.
      destruct (chat s) eqn:Ec; [|now elim Hchat].
      simpl. rewrite length_app. auto.
    - unfold searchDictionary, call.
      match goal with Hx : truthy _ = true |- _ => rewrite Hx end.
      simpl. rewrite length_app. auto.
    - unfold checkTranslation, call.
      match goal with Hx : truthy _ = true |- _ => rewrite Hx end.
      simpl. rewrite length_app. auto.
    - unfold analyzeWriting, call.
      match goal with Hx : truthy _ = true |- _ => rewrite Hx end.
      simpl. rewrite length_app. auto. }
  destruct Hsub as [Hs Hl]. split; [exact Hs|]. split; [exact Hl|].
  intros e' He'. unfold step. replace (offered s' e') with false.
  - now rewrite orb_true_r.
  - unfold offered. rewrite Hs.
    destruct e'; try discriminate He'; simpl;
      now rewrite ?andb_false_r.
Qed.

Lemma submit_disables_submits_witness :
  let s := state_after [ChangeView v_dictionary; TypeDictionaryWord "tide"] in
  let s' := state_after [ChangeView v_dictionary; TypeDictionaryWord "tide";
                         SubmitDictionary] in
  reachable s /\ is_submit SubmitDictionary = true
  /\ step s SubmitDictionary = Some s'
  /\ isSubmitting s' = true
  /\ step s' SubmitDictionary = None.
Proof.
  intros s s'.
  assert (Hr : reachable s).
  { eapply reachable_state_after. vm_compute. reflexivity. }
  assert (H : step s SubmitDictionary = Some s') by (vm_compute; reflexivity).
  destruct (submit_disables_submits s SubmitDictionary s' Hr eq_refl H)
    as (Hs & _ & Hno).
  split; [exact Hr|]. split; [reflexivity|]. split; [exact H|].
  split; [exact Hs|]. exact (Hno SubmitDictionary eq_refl).
Defined.

(** ** One exam request at a time *)

Lemma single_start_inv_step s e s' :
  single_start_inv s ->
  (e = ClickStartExam -> startCalls s = 0) ->
  step s e = Some s' ->
  single_start_inv s'.
Proof.
  unfold single_start_inv, index_in_range, startCalls.
  intros (Hle & Hwait & Hrange) Hfirst H. step_inv H.
  destruct e;
    try (injection H as <-; unfold_handlers; repeat case_if; simpl;
         rewrite ?filter_app; simpl; rewrite ?app_nil_r;
         repeat split; auto; try apply Hwait; assumption).
  - (* ChangeView *)
    injection H as <-. destruct view; unfold_handlers; simpl;
      rewrite ?filter_app; simpl; rewrite ?app_nil_r;
      (split; [assumption|]); (split; [|assumption]);
      intros H1; (split; [now apply Hwait|]);
      first [discriminate | now apply Hwait].
  - (* ClickStartExam *)
    injection H as <-. specialize (Hfirst eq_refl).
    apply offered_ClickStartExam in Hguard. destruct Hguard as (_ & Hs & _).
    unfold startExam, call. simpl. rewrite filter_app, length_app. simpl.
    rewrite Hfirst, Hs. repeat split; auto. discriminate.
  - (* ClickNext *)
    apply offered_ClickNext in Hguard. destruct Hguard as (_ & Hs & _).
    assert (Hzero : List.length (filter is_startCall (inflight s)) <> 1).
    { intros H1. now destruct (Hwait H1). }
    apply handleNextQuestion_Some in H.
    destruct H as (q & Hq & [[Hn [a ->]] | [_ ->]]); simpl;
      rewrite ?filter_app; simpl; rewrite ?app_nil_r;
      (split; [assumption|]); (split; [intros H1; contradiction|]).
    + right. unfold lastQuestion in Hn. apply not_false_is_true in Hn.
      apply Z.ltb_lt in Hn. lia.
    + assumption.
  - (* ClickTakeAnother *)
    injection H as <-. simpl. repeat split; auto; try apply Hwait; auto.
    discriminate.
  - (* Replied *)
    destruct (nth_error (inflight s) i) as [[k req]|] eqn:En; [|discriminate].
    pose proof (filter_remove_nth_length is_startCall i (inflight s)) as Hrm.
    destruct k; destruct r as [|[]]; simpl in H; try discriminate;
      injection H as <-; simpl;
      try (pose proof (filter_remove_nth_hit is_startCall i (inflight s) _
                         En eq_refl) as Hhit);
      try (split; [lia|]; split; [intros H1|assumption];
           first [ lia
                 | assert (Hone : List.length
                                    (filter is_startCall (inflight s)) = 1)
                     by lia;
                   destruct (Hwait Hone); split;
                   [assumption | first [assumption | discriminate]] ]).
    (* the questions arrive *)
    split; [lia|]. split; [intros H1; lia|].
    assert (Hone : List.length (filter is_startCall (inflight s)) = 1) by lia.
    destruct (Hwait Hone) as [Hi _]. rewrite Hi.
    destruct qs; [left; reflexivity|right; simpl; lia].
Qed.

Lemma reachable_single_start_inv s :
  reachable_single_start s -> single_start_inv s.
Proof.
  induction 1 as [| |s e s' _ IH Hfirst H].
  - unfold single_start_inv, index_in_range. split; [vm_compute; lia|].
    split; [vm_compute; discriminate|left; reflexivity].
  - unfold single_start_inv, index_in_range. split; [vm_compute; lia|].
    split; [vm_compute; discriminate|left; reflexivity].
  - eapply single_start_inv_step; eassumption.
Qed.

(** X15: as long as Start Exam is never pressed while an earlier exam request
    is outstanding, the index stays within the question list and
    [renderExams] never throws: the page stays up.  (The run of
    [overlapping_starts] shows what happens otherwise.) *)
Theorem single_start_keeps_index_in_range s :
  reachable_single_start s ->
  (examQuestions s = []
   \/ currentQuestionIndex s < List.length (examQuestions s))
  /\ renderExams s <> None /\ crashed s = false.
Proof.
  intros Hr. apply reachable_single_start_inv in Hr.
  destruct Hr as (_ & _ & Hrange). split; [exact Hrange|].
  assert (Hren : renderExams s <> None).
  { intros Hnone. apply renderExams_None in Hnone.
    destruct Hnone as (_ & _ & Hne & Hlen).
    destruct Hrange as [Hq|Hlt]; [contradiction|lia]. }
  split; [exact Hren|].
  unfold crashed. destruct (renderExams s); [|now elim Hren].
  simpl. apply andb_false_r.
Qed.

Lemma single_start_keeps_index_in_range_witness :
  reachable_single_start (state_after exam_started)
  /\ currentQuestionIndex (state_after exam_started)
     < List.length (examQuestions (state_after exam_started))
  /\ crashed (state_after exam_started) = false.
Proof.
  assert (Hr : reachable_single_start (state_after exam_started)).
  { apply (single_start_step
             (state_after [ChangeView v_exams; ClickStartExam])
             (Replied 1 (resolved (JsonQuestions [question1; question2]))));
      [|discriminate|vm_compute; reflexivity].
    apply (single_start_step (state_after [ChangeView v_exams]) ClickStartExam);
      [|intros _; vm_compute; reflexivity|vm_compute; reflexivity].
    apply (single_start_step mounted (ChangeView v_exams));
      [constructor|discriminate|vm_compute; reflexivity]. }
  split; [exact Hr|]. split; [vm_compute; lia|].
  exact (proj2 (proj2 (single_start_keeps_index_in_range _ Hr))).
Defined.

(** ** The calls a step starts *)



(** What a step does to the outstanding calls: a reply takes its call
    away and starts none; any other event leaves them as they are or puts
    one call behind them, a grading call only for the Next button, an exam
    request only for Start Exam, and never one for the word of the day. *)
Lemma step_calls s e s' :
  step s e = Some s' ->
  match e with
  | Replied i _ => inflight s' = remove_nth i (inflight s)
  | _ =>
      inflight s' = inflight s
      \/ exists k req,
           inflight s' = (inflight s ++ [(k, req)])%list
           /\ (k = in_gradeExam -> e = ClickNext)
           /\ (k = in_startExam -> e = ClickStartExam)
           /\ k <> in_generateWordOfTheDay
  end.
Proof.
  intros H. step_inv H.
  destruct e;
    try (injection H as <-; unfold_handlers; repeat case_if; simpl;
         first [left; reflexivity
               | right; do 2 eexists; split; [reflexivity|];
                 repeat split; try discriminate; reflexivity]).
  - injection H as <-. destruct view; unfold_handlers; simpl;
      first [left; reflexivity
            | right; do 2 eexists; split; [reflexivity|];
              repeat split; discriminate].
  - apply handleNextQuestion_Some in H.
    destruct H as (q & _ & [[_ [a ->]] | [_ ->]]); simpl;
      first [left; reflexivity
            | right; do 2 eexists; split; [reflexivity|];
              repeat split; try discriminate; reflexivity].
  - destruct (nth_error (inflight s) i) as [[k req]|]; [|discriminate].
    apply resume_inflight in H. now destruct H as [-> _].
Qed.



(** ** Sample data for a question that comes back *)

(** ** C2 *)

Lemma lastQuestion_iff s :
  lastQuestion s
  <-> List.length (examQuestions s) <= currentQuestionIndex s + 1.
Proof. unfold lastQuestion. rewrite Z.ltb_ge. lia. Qed.







(** ** C3 *)

(** C3 fails on the code.  Start Exam is pressed, the vocabulary view is
    visited (its reply clears the shared [isLoading]), Start Exam is
    pressed again; the first reply brings two questions, one is answered,
    and the late second reply replaces them by a single question while the
    index stays at 1: the index exceeds [examQuestions.length - 1],
    [renderExams] reads an undefined question and the page goes down. *)
Theorem C3_index_out_of_range :
  exists s,
    run mounted overlapping_starts = Some s
    /\ activeView s = v_exams /\ examState s = in_progress
    /\ examQuestions s = [question1] /\ currentQuestionIndex s = 1
    /\ (Z.of_nat (List.length (examQuestions s)) - 1
        < Z.of_nat (currentQuestionIndex s))%Z
    /\ renderExams s = None /\ crashed s = true.
Proof.
  eexists. split; [vm_compute; reflexivity|].
  repeat (split; [reflexivity|]). reflexivity.
Qed.

(** ** C4 *)

(** After failed grading the exam is back at setup. *)
Lemma step_ClickStartExam s :
  activeView s = v_exams -> examState s = setup -> isLoading s = false ->
  step s ClickStartExam = Some (startExam s).
Proof.
  intros Hv Hs Hl. unfold step, crashed, offered, examControl, renderExams.
  rewrite Hv, Hs, Hl. reflexivity.
Qed.

(** C4, amended: when a call made through [generateContent] is rejected,
    an error message is shown, the generic one except after grading, which
    shows its own; the handler that waited clears its loader flag
    ([isLoading] or [isSubmitting]; the word of the day has none) and
    leaves the other one alone; failed grading sets [examState] back to
    ['setup'] and no other failure touches it; and nothing else of the
    state changes: in particular the questions and the answers of the exam
    are kept.  After a failed exam request on the setup form the Start
    button can be pressed again. *)
Theorem C4_rejected_call s i k req s' :
  step s (Replied i rejected) = Some s' ->
  nth_error (inflight s) i = Some (k, req) ->
  via_generateContent k = true ->
  s' = s |> setError (error s') |> setIsLoading (isLoading s')
         |> setIsSubmitting (isSubmitting s') |> setExamState (examState s')
         |> setInflight (remove_nth i (inflight s))
  /\ (if is_gradeExam k
      then error s' = "Failed to grade the exam. Please try again later."
           /\ examState s' = setup
      else error s' = "An error occurred. Please try again."
           /\ examState s' = examState s)
  /\ isLoading s' = (if clearsLoading k then false else isLoading s)
  /\ isSubmitting s' = (if clearsSubmitting k then false else isSubmitting s)
  /\ (isLoading s' = false \/ isLoading s' = isLoading s)
  /\ (isSubmitting s' = false \/ isSubmitting s' = isSubmitting s)
  /\ examQuestions s' = examQuestions s /\ userAnswers s' = userAnswers s
  /\ (k = in_startExam -> activeView s = v_exams -> examState s = setup ->
      step s' ClickStartExam = Some (startExam s')).
Proof.
  intros H Hn Hk. step_inv H. rewrite Hn in H.
  destruct k; try discriminate Hk; simpl in H; injection H as <-;
    (split; [destruct s; reflexivity|]); simpl;
    repeat (split; [first [reflexivity | split; reflexivity | auto]|]);
    try (intros Hd; discriminate Hd).
  intros _ Hv Hs. now apply step_ClickStartExam.
Qed.

Lemma C4_rejected_call_witness :
  let s := state_after exam_finished in
  let s' := state_after (exam_finished ++ [Replied 1 rejected]) in
  step s (Replied 1 rejected) = Some s'
  /\ nth_error (inflight s) 1
     = Some (in_gradeExam,
             generateContent
               (prompt_grade "Beginner" [question1; question2]
                  [UserAnswer.mk 1 "I work."; UserAnswer.mk 2 "went"])
               (Some schema_result) (Some (personaInstructions friendly)))
  /\ via_generateContent in_gradeExam = true
  /\ isLoading s = true /\ isLoading s' = false
  /\ examQuestions s' = examQuestions s /\ userAnswers s' = userAnswers s.
Proof.
  intros s s'.
  assert (Hstep : step s (Replied 1 rejected) = Some s')
    by (vm_compute; reflexivity).
  assert (Hn : nth_error (inflight s) 1
               = Some (in_gradeExam,
                       generateContent
                         (prompt_grade "Beginner" [question1; question2]
                            [UserAnswer.mk 1 "I work."; UserAnswer.mk 2 "went"])
                         (Some schema_result)
                         (Some (personaInstructions friendly))))
    by (vm_compute; reflexivity).
  split; [exact Hstep|]. split; [exact Hn|]. split; [reflexivity|].
  split; [reflexivity|].
  destruct (C4_rejected_call s 1 _ _ s' Hstep Hn eq_refl)
    as (_ & _ & Hload & _ & _ & _ & Hq & Hu & _).
  split; [exact Hload|]. split; [exact Hq|exact Hu].
Defined.

(** ** C8 *)

(** C8, amended: an event starts at most one call: a reply only takes its
    own call away, and any other event leaves the outstanding calls as they
    are or puts one call behind them.  Nothing bounds the calls that are
    outstanding together: every number of them is reached by some run of
    the component. *)
Theorem C8_one_call_per_event :
  (forall s e s',
      step s e = Some s' ->
      match e with
      | Replied i _ => inflight s' = remove_nth i (inflight s)
      | _ =>
          inflight s' = inflight s
          \/ exists kr, inflight s' = (inflight s ++ [kr])%list
      end)
  /\ (forall s e s',
         step s e = Some s' ->
         List.length (inflight s') <= List.length (inflight s) + 1)
  /\ (forall n, exists tr s,
         run mounted tr = Some s /\ List.length (inflight s) = n + 1).
Proof.
  split; [|split; [exact step_inflight_length|]].
  - intros s e s' H. pose proof (step_calls _ _ _ H) as C.
    destruct e; try exact C;
      (destruct C as [C | (k & req & C & _)]; [now left|right; eauto]).
  - intros n.
    destruct (run_story_requests n mounted eq_refl) as (s & Hr & Hl).
    exists (repeat (ChangeView v_story) n), s. split; [exact Hr|].
    rewrite Hl. simpl. lia.
Qed.

Lemma C8_one_call_per_event_witness :
  let s := state_after [MouseUp true "hello" true false 10 20] in
  let s' := state_after [MouseUp true "hello" true false 10 20;
                         ChangeView v_story] in
  step s (ChangeView v_story) = Some s'
  /\ List.length (inflight s) = 2
  /\ (inflight s' = inflight s
      \/ exists kr, inflight s' = (inflight s ++ [kr])%list).
Proof.
  intros s s'.
  assert (Hstep : step s (ChangeView v_story) = Some s')
    by (vm_compute; reflexivity).
  split; [exact Hstep|]. split; [reflexivity|].
  exact (proj1 C8_one_call_per_event s (ChangeView v_story) s' Hstep).
Defined.

(** ** C10 *)

(** C10 fails on the code.  A one-question exam is finished and its
    grading is outstanding; the vocabulary view is visited (its reply
    clears the shared [isLoading]), a second exam is started, which resets
    [examResults], and answered; then the grading of the first exam
    arrives: with the grading of the second exam still outstanding, the
    results view shows the result of the first. *)
Theorem C10_stale_result_shown :
  exists s,
    run mounted stale_grading = Some s
    /\ userAnswers s = [UserAnswer.mk 1 "I rest."]
    /\ map fst (inflight s) = [in_generateWordOfTheDay; in_gradeExam]
    /\ renderExams s
       = Some (view_results 80 "Good work."
                 [mkFeedbackView 1 true "Describe your day." "I work."
                    "Clear."]).
Proof.
  eexists. split; [vm_compute; reflexivity|].
  split; [reflexivity|]. split; reflexivity.
Qed.

(** ** Delivery and reset *)

(** X16: question delivery is sequential.  The question shown is
    [examQuestions[currentQuestionIndex]], numbered from 1; the button on
    a question that is not the last one adds exactly 1 to the index and
    keeps the exam and its questions; on the last question it keeps the
    index; and while the exam stays in progress no event ever lowers the
    index. *)
Theorem sequential_delivery :
  (forall s n t q a d l,
      renderExams s = Some (view_question n t q a d l) ->
      nth_error (examQuestions s) (currentQuestionIndex s) = Some q
      /\ n = currentQuestionIndex s + 1 /\ t = List.length (examQuestions s))
  /\ (forall s s',
         step s ClickNext = Some s' ->
         examQuestions s' = examQuestions s
         /\ (currentQuestionIndex s + 1 < List.length (examQuestions s) ->
             currentQuestionIndex s' = currentQuestionIndex s + 1
             /\ examState s' = in_progress)
         /\ (List.length (examQuestions s) <= currentQuestionIndex s + 1 ->
             currentQuestionIndex s' = currentQuestionIndex s
             /\ examState s' = results))
  /\ (forall s e s',
         step s e = Some s' ->
         examState s = in_progress -> examState s' = in_progress ->
         currentQuestionIndex s <= currentQuestionIndex s').
Proof.
  split; [|split].
  - intros. eapply renderExams_question. eassumption.
  - intros s s' H. step_inv H.
    apply offered_ClickNext in Hguard. destruct Hguard as (_ & Hs & _).
    apply handleNextQuestion_Some in H.
    destruct H as (q & _ & [[Hn [a ->]] | [Hl ->]]);
      [rewrite lastQuestion_iff in Hn|rewrite lastQuestion_iff in Hl];
      (split; [reflexivity|]); split; intros Hc; try lia;
      split; first [reflexivity | exact Hs].
  - intros s e s' H Hs Hs'.
    pose proof (step_exam_data _ _ _ H) as D.
    destruct e; try (destruct D as (-> & _); lia).
    + (* ClickStartExam is not offered *)
      step_inv H. apply offered_ClickStartExam in Hguard.
      destruct Hguard as (_ & Hc & _). congruence.
    + apply handleNextQuestion_Some in D.
      destruct D as (q & _ & [[_ [a ->]] | [_ ->]]); simpl; lia.
    + subst s'. simpl in Hs'. discriminate.
    + destruct D as (k & req & _ & D). apply resume_exam_data in D.
      destruct D as (-> & _). simpl. lia.
Qed.

Lemma sequential_delivery_witness :
  let s := state_after (exam_started ++ [TypeAnswer "I work."]) in
  let s' := state_after (exam_started ++ [TypeAnswer "I work."; ClickNext]) in
  step s ClickNext = Some s'
  /\ currentQuestionIndex s + 1 < List.length (examQuestions s)
  /\ currentQuestionIndex s' = currentQuestionIndex s + 1
  /\ examState s' = in_progress.
Proof.
  intros s s'.
  assert (Hstep : step s ClickNext = Some s') by (vm_compute; reflexivity).
  assert (Hn : currentQuestionIndex s + 1 < List.length (examQuestions s))
    by (vm_compute; lia).
  split; [exact Hstep|]. split; [exact Hn|].
  destruct sequential_delivery as (_ & Hnext & _).
  destruct (Hnext s s' Hstep) as (_ & Hmid & _). exact (Hmid Hn).
Defined.

(** X17: a press on Start Exam resets the exam run before it fetches
    questions: whatever an earlier exam left, the request goes out from a
    state in which the questions and the answers are empty, the index is
    0, the current answer is the empty string and the results are null,
    with the loader on; the request, put behind the outstanding calls,
    asks 'gemini-2.5-flash' for an exam of the chosen type and length at
    the level of the settings. *)
Theorem startExam_resets s s' :
  step s ClickStartExam = Some s' ->
  examQuestions s' = [] /\ userAnswers s' = []
  /\ currentQuestionIndex s' = 0 /\ currentAnswer s' = ""
  /\ examResults s' = None /\ isLoading s' = true
  /\ examState s' = setup
  /\ inflight s' =
       (inflight s
        ++ [(in_startExam,
             mkRequest models_generateContent "gemini-2.5-flash"
               (prompt_exam (ExamSettings.type (examSettings s))
                  (ExamSettings.questions (examSettings s))
                  (difficultyLevels (difficulty (settings s))))
               (Some schema_questions) None)])%list.
Proof.
  intros H. step_inv H. injection H as <-.
  apply offered_ClickStartExam in Hguard. destruct Hguard as (_ & Hs & _).
  repeat (split; [reflexivity|]). split; [exact Hs|reflexivity].
Qed.

Lemma startExam_resets_witness :
  let s := state_after exam_taken in
  let s' := state_after (exam_taken ++ [ClickStartExam]) in
  step s ClickStartExam = Some s'
  /\ examQuestions s = [question1; question2]
  /\ userAnswers s = [UserAnswer.mk 1 "I work."; UserAnswer.mk 2 "went"]
  /\ currentQuestionIndex s = 1 /\ currentAnswer s = "went"
  /\ examQuestions s' = [] /\ userAnswers s' = []
  /\ currentQuestionIndex s' = 0 /\ currentAnswer s' = ""
  /\ examResults s' = None.
Proof.
  intros s s'.
  assert (Hstep : step s ClickStartExam = Some s')
    by (vm_compute; reflexivity).
  destruct (startExam_resets s s' Hstep) as (Hq & Hu & Hi & Ha & Hr & _).
  split; [exact Hstep|]. do 4 (split; [reflexivity|]).
  split; [exact Hq|]. split; [exact Hu|]. split; [exact Hi|].
  split; [exact Ha|exact Hr].
Defined.

Lemma C9_one_answer_per_question_witness :
  let s := state_after third_question_answered in
  let s' := state_after (third_question_answered ++ [ClickNext]) in
  reachable s /\ handleNextQuestion s = Some s'
  /\ userAnswers s = [UserAnswer.mk 1 "I work."; UserAnswer.mk 2 "went"]
  /\ userAnswers s' = [UserAnswer.mk 2 "went"; UserAnswer.mk 1 "I rest."]
  /\ NoDup (answerIds (userAnswers s'))
  /\ exists q,
       nth_error (examQuestions s) (currentQuestionIndex s) = Some q
       /\ answersFor (ExamQuestion.id q) (userAnswers s') = [newAnswer s q]
       /\ forall a, In a (userAnswers s) ->
                    UserAnswer.questionId a <> ExamQuestion.id q ->
                    In a (userAnswers s').
Proof.
  intros s s'.
  assert (Hr : reachable s).
  { eapply reachable_state_after. vm_compute. reflexivity. }
  assert (Hn : handleNextQuestion s = Some s') by (vm_compute; reflexivity).
  split; [exact Hr|]. split; [exact Hn|].
  split; [reflexivity|]. split; [reflexivity|].
  exact (C9_one_answer_per_question s s' Hr Hn).
Defined.

(** X1: a user who answers the questions of a fresh exam one after the
    other ends in the results state with exactly one more call outstanding:
    the grading request to 'gemini-2.5-flash', whose prompt carries all the
    questions and, in their order, one answer per question. *)
Theorem exam_run_sends_one_grading_request s answers :
  activeView s = v_exams -> isLoading s = false ->
  examState s = in_progress ->
  examQuestions s <> [] -> currentQuestionIndex s = 0 -> userAnswers s = [] ->
  NoDup (map ExamQuestion.id (examQuestions s)) ->
  Forall2 answerable (examQuestions s) answers ->
  exists s',
    run s (examEvents (examQuestions s) answers) = Some s'
    /\ examState s' = results
    /\ userAnswers s' = recorded (examQuestions s) answers
    /\ inflight s' =
         (inflight s
          ++ [(in_gradeExam,
               mkRequest models_generateContent "gemini-2.5-flash"
                 (prompt_grade (difficultyLevels (difficulty (settings s)))
                    (examQuestions s) (recorded (examQuestions s) answers))
                 (Some schema_result)
                 (Some (personaInstructions (persona (settings s)))))])%list.
Proof.
  intros Hv Hl Hs Hne Hi Hu Hnd Hans.
  destruct (run_examEvents (examQuestions s) [] answers s)
    as (s' & Hrun & Hu' & Hinf & Hres); try assumption; try reflexivity.
  - rewrite Hu. intros x [].
  - rewrite Hu in Hu'. simpl in Hu'. rewrite Hu' in Hinf.
    exists s'. auto.
Qed.

Lemma exam_run_sends_one_grading_request_witness :
  let s := state_after exam_started in
  activeView s = v_exams /\ isLoading s = false /\ examState s = in_progress
  /\ examQuestions s <> [] /\ currentQuestionIndex s = 0
  /\ userAnswers s = []
  /\ NoDup (map ExamQuestion.id (examQuestions s))
  /\ Forall2 answerable (examQuestions s) ["I work."; "went"]
  /\ exists s',
       run s (examEvents (examQuestions s) ["I work."; "went"]) = Some s'
       /\ examState s' = results
       /\ userAnswers s' = recorded (examQuestions s) ["I work."; "went"]
       /\ inflight s' =
            (inflight s
             ++ [(in_gradeExam,
                  mkRequest models_generateContent "gemini-2.5-flash"
                    (prompt_grade
                       (difficultyLevels (difficulty (settings s)))
                       (examQuestions s)
                       (recorded (examQuestions s) ["I work."; "went"]))
                    (Some schema_result)
                    (Some (personaInstructions
                             (persona (settings s)))))])%list.
Proof.
  intros s.
  assert (H1 : activeView s = v_exams) by reflexivity.
  assert (H2 : isLoading s = false) by reflexivity.
  assert (H3 : examState s = in_progress) by reflexivity.
  assert (H4 : examQuestions s <> []) by discriminate.
  assert (H5 : currentQuestionIndex s = 0) by reflexivity.
  assert (H6 : userAnswers s = []) by reflexivity.
  assert (H7 : NoDup (map ExamQuestion.id (examQuestions s))).
  { change (NoDup [1; 2]%Z). repeat constructor; simpl; intuition discriminate. }
  assert (H8 : Forall2 answerable (examQuestions s) ["I work."; "went"]).
  { change (Forall2 answerable [question1; question2] ["I work."; "went"]).
    repeat constructor; try discriminate.
    intros _. eexists. split; [reflexivity|]. simpl. auto. }
  repeat (split; [assumption|]).
  exact (exam_run_sends_one_grading_request s _ H1 H2 H3 H4 H5 H6 H7 H8).
Defined.

(** X13: the word of the day is asked for once, on mount.  No event
    starts such a call: a reply only takes its own call away, also when it
    reports a failure, and any other event leaves the outstanding calls as
    they are or adds a call that is not for the word of the day.  So at
    most one such call is ever outstanding, none once a word is stored,
    and a call that fails is not repeated. *)
Theorem word_of_the_day_fetched_once s e s' :
  reachable s -> step s e = Some s' ->
  match e with
  | Replied i _ => inflight s' = remove_nth i (inflight s)
  | _ =>
      inflight s' = inflight s
      \/ exists kr,
           inflight s' = (inflight s ++ [kr])%list
           /\ is_wordCall kr = false
  end
  /\ wordCalls s' <= wordCalls s /\ wordCalls s <= 1
  /\ (wordOfTheDay s' <> None -> wordCalls s' = 0).
Proof.
  intros Hr H. split.
  - pose proof (step_calls _ _ _ H) as C.
    destruct e; try exact C;
      (destruct C as [C | (k & req & C & _ & _ & Hw)];
       [now left|right; exists (k, req); split; [exact C|]];
       destruct k; try reflexivity; now elim Hw).
  - split; [exact (step_wordCalls _ _ _ H)|].
    split; [exact (proj1 (reachable_wordCalls s Hr))|].
    apply reachable_wordCalls. econstructor; eassumption.
Qed.

Lemma word_of_the_day_fetched_once_witness :
  let s' := state_after [Replied 0 rejected] in
  reachable mounted
  /\ step mounted (Replied 0 rejected) = Some s'
  /\ wordCalls mounted = 1
  /\ inflight s' = remove_nth 0 (inflight mounted)
  /\ inflight s' = [] /\ wordOfTheDay s' = None.
Proof.
  intros s'.
  assert (H : step mounted (Replied 0 rejected) = Some s')
    by (vm_compute; reflexivity).
  split; [constructor|]. split; [exact H|]. split; [reflexivity|].
  split; [|split; reflexivity].
  exact (proj1 (word_of_the_day_fetched_once mounted _ _ reachable_mounted H)).
Defined.

(** ** Recording *)

Lemma resume_recording k r s s' :
  resume k r s = Some s' ->
  recognition s' = recognition s /\ isRecording s' = isRecording s
  /\ (transcript s' = transcript s \/ transcript s' = "").
Proof.
  intros H.
  destruct k; destruct r as [|[]]; simpl in H; try discriminate;
    injection H as <-; simpl; auto.
Qed.

Lemma reachable_without_recognition s :
  reachable s ->
  recognition s = None -> isRecording s = false /\ transcript s = "".
Proof.
  induction 1 as [| |s e s' _ IH H]; intros Hn.
  - discriminate.
  - split; reflexivity.
  - step_inv H.
    destruct e;
      try (injection H as <-; revert Hn; unfold_handlers;
           repeat case_if; simpl; intros Hn;
           first [exact (IH Hn) | discriminate Hn
                 | destruct (IH Hn); split; auto]; fail).
    + (* ChangeView *)
      injection H as <-. revert Hn.
      destruct view; unfold_handlers; simpl; intros Hn;
        destruct (IH Hn); split; auto.
    + (* ClickRecord *)
      injection H as <-. revert Hn. unfold handlePronunciation.
      destruct (isRecording s) eqn:Er, (recognition s) eqn:En; simpl;
        intros Hn;
        first [ congruence
              | destruct (IH eq_refl) as [X _]; discriminate X
              | split; [assumption|reflexivity] ].
    + (* RecognitionResult *)
      unfold offered in Hguard. injection H as <-. simpl in Hn.
      rewrite Hn in Hguard. discriminate.
    + (* ClickNext *)
      apply handleNextQuestion_Some in H.
      destruct H as (q & _ & [[_ [a ->]] | [_ ->]]); simpl in *;
        exact (IH Hn).
    + (* Replied *)
      destruct (nth_error (inflight s) i) as [[k req]|]; [|discriminate].
      apply resume_recording in H. simpl in H.
      destruct H as (Hrec & Hi & Ht). rewrite Hrec in Hn.
      destruct (IH Hn) as [IHr IHt]. rewrite Hi.
      split; [exact IHr|]. destruct Ht as [Ht|Ht]; congruence.
Qed.

(** X18: in a browser without speech recognition a recording never
    starts: the record button clears the transcript and the feedback and
    then throws, so [isRecording] stays false, no transcript ever arrives
    and the transcript stays empty.  Where there is speech recognition, a
    result that arrives after the handler was assigned replaces the
    transcript, also after Stop Recording. *)
Theorem recording_needs_recognition :
  (forall s,
      reachable s -> recognition s = None ->
      isRecording s = false /\ transcript s = ""
      /\ (forall t, step s (RecognitionResult t) = None)
      /\ (activeView s = v_pronunciation ->
          exists s',
            step s ClickRecord = Some s'
            /\ isRecording s' = false /\ pronunciationFeedback s' = ""))
  /\ (forall s t,
         crashed s = false -> recognition s = Some true ->
         exists s',
           step s (RecognitionResult t) = Some s' /\ transcript s' = t
           /\ isRecording s' = isRecording s).
Proof.
  split.
  - intros s Hr Hn.
    destruct (reachable_without_recognition s Hr Hn) as [Hi Ht].
    split; [exact Hi|]. split; [exact Ht|]. split.
    + intros t. unfold step, offered. rewrite Hn. simpl.
      now rewrite orb_true_r.
    + intros Hv. unfold step, crashed, offered. rewrite Hv. simpl.
      unfold handlePronunciation. rewrite Hi, Hn.
      eexists. split; [reflexivity|]. split; [exact Hi|reflexivity].
  - intros s t Hc Hn. unfold step, offered. rewrite Hc, Hn. simpl.
    eexists. split; [reflexivity|]. split; reflexivity.
Qed.

Lemma recording_needs_recognition_witness :
  let s := state_after [ChangeView v_pronunciation; ClickRecord; ClickRecord] in
  (crashed s = false /\ recognition s = Some true /\ isRecording s = false
   /\ exists s',
        step s (RecognitionResult "good morning") = Some s'
        /\ transcript s' = "good morning"
        /\ isRecording s' = isRecording s)
  /\ reachable mounted_without_speech
  /\ recognition mounted_without_speech = None
  /\ forall t, step mounted_without_speech (RecognitionResult t) = None.
Proof.
  intros s.
  assert (Hc : crashed s = false) by (vm_compute; reflexivity).
  assert (Hn : recognition s = Some true) by (vm_compute; reflexivity).
  split.
  - split; [exact Hc|]. split; [exact Hn|]. split; [reflexivity|].
    exact (proj2 recording_needs_recognition s "good morning" Hc Hn).
  - split; [constructor|]. split; [reflexivity|].
    exact (proj1 (proj2 (proj2 (proj1 recording_needs_recognition
                                   mounted_without_speech
                                   reachable_mounted_without_speech
                                   eq_refl)))).
Defined.
